(** * BrevityBackend: the news proxy's retry controller and its handlers

    A shallow embedding of the news controller (the retry-capable variant
    with [makeNewsRequest], [getUserAgent], [isCloudflareError],
    [getErrorMessage] and the five route handlers), followed by the
    properties of the outbound request layer: retry and backoff, failure
    classification, User-Agent rotation and input validation. *)

From Stdlib Require Import ZArith String Ascii List Bool Lia DecimalString DecimalPos.
From stdpp Require Import base option list list_numbers strings gmap fin_maps.

Local Open Scope string_scope.
Local Open Scope list_scope.
Local Open Scope Z_scope.

(** ** JavaScript values *)

(** A string is the sequence of bytes of its UTF-8 encoding. *)

(** A JS number as far as the controller meets one: [NaN], an integer
    that a double holds exactly, or an infinity. Positive and negative
    zero are both [Num 0]: they are equally falsy and print alike. *)
Inductive JsNumber : Type :=
  | NaN
  | Num (z : Z)
  | Infinity (negative : bool).

(** A JSON-like value; arrays and objects nest, so no induction principle
    is generated for it (none is needed below). *)
#[local] Unset Elimination Schemes.
Inductive JsValue : Type :=
  | VUndefined
  | VNull
  | VBool (b : bool)
  | VNumber (n : JsNumber)
  | VString (s : string)
  | VArray (items : list JsValue)
  | VObject (fields : list (string * JsValue)).
#[local] Set Elimination Schemes.

(** JS truthiness ([ToBoolean]). *)
Definition truthy (v : JsValue) : bool :=
  match v with
  | VUndefined | VNull => false
  | VBool b => b
  | VNumber NaN => false
  | VNumber (Num z) => negb (z =? 0)
  | VNumber (Infinity _) => true
  | VString s => negb (String.eqb s "")
  | VArray _ | VObject _ => true
  end.

(** [s.includes(sub)]: [sub] occurs in [s] as a contiguous substring. *)
Fixpoint includes (s sub : string) : bool :=
  if String.prefix sub s then true
  else match s with
       | EmptyString => false
       | String _ rest => includes rest sub
       end.

(** ** The HTTP client's data *)

Record Response : Type := mkResponse {
  resp_status : Z;
  resp_data : JsValue
}.

(** The error an axios call rejects with: [error.response] is absent when
    no HTTP response was received; [error.code] is the transport code. *)
Record AxiosError : Type := mkAxiosError {
  err_response : option Response;
  err_code : option string;
  err_message : string
}.

Record RequestConfig : Type := mkConfig {
  cfg_params : gmap string JsValue;
  cfg_headers : gmap string string
}.

(** What one logical fetch does to the outside world, in order. *)
Inductive Event : Type :=
  | EvGet (endpoint : string) (config : RequestConfig)
  | EvConsoleError (attempt : Z) (detail : JsValue)
  | EvConsoleLog (waitTime : Z)
  | EvDelay (ms : Z).

Abbreviation Trace := (list Event).

(** The upstream calls recorded in a trace. *)
Fixpoint calls (t : Trace) : list (string * RequestConfig) :=
  match t with
  | [] => []
  | EvGet ep cfg :: t' => (ep, cfg) :: calls t'
  | _ :: t' => calls t'
  end.

(** The backoff waits recorded in a trace. *)
Fixpoint delays (t : Trace) : list Z :=
  match t with
  | [] => []
  | EvDelay ms :: t' => ms :: delays t'
  | _ :: t' => delays t'
  end.

(** The object thrown by [makeNewsRequest]. *)
Record ClassifiedError : Type := mkClassified {
  status : Z;
  message : string;
  isCloudflareIssue : bool
}.

(** How an async function completes. *)
Inductive Completion (A E : Type) : Type :=
  | Return (a : A)
  | Throw (e : E).
Arguments Return {A E} a.
Arguments Throw {A E} e.

(** ** The axios instance *)

Definition NEWS_BASE_URL : string := "https://newsapi.org/v2".

Definition defaultHeaders : gmap string string :=
  list_to_map
    [ ("User-Agent", "Mozilla/5.0 (Windows NT 10.0; Win64; x64) AppleWebKit/537.36 (KHTML, like Gecko) Chrome/91.0.4472.124 Safari/537.36");
      ("Accept", "application/json");
      ("Accept-Language", "en-US,en;q=0.9");
      ("Accept-Encoding", "gzip, deflate, br");
      ("DNT", "1");
      ("Connection", "keep-alive");
      ("Upgrade-Insecure-Requests", "1");
      ("Sec-Fetch-Dest", "document");
      ("Sec-Fetch-Mode", "navigate");
      ("Sec-Fetch-Site", "none");
      ("Cache-Control", "max-age=0") ].

(** [timeout: 30000] of [axios.create], in milliseconds. *)
Definition clientTimeout : Z := 30000.

(** Headers of a request override the defaults of the instance. *)
Definition sentHeaders (config : RequestConfig) : gmap string string :=
  cfg_headers config ∪ defaultHeaders.

(** ** Classification helpers *)

(** [error.response?.status] *)
Definition responseStatus (error : AxiosError) : option Z :=
  resp_status <$> err_response error.

(** [arr[i]] for an integer index: [undefined] out of range. *)
Definition arrayAt {A : Type} (arr : list A) (i : Z) : option A :=
  if i <? 0 then None else arr !! Z.to_nat i.

Definition userAgents : list string :=
  [ "Mozilla/5.0 (Windows NT 10.0; Win64; x64) AppleWebKit/537.36 (KHTML, like Gecko) Chrome/91.0.4472.124 Safari/537.36";
    "Mozilla/5.0 (Macintosh; Intel Mac OS X 10_15_7) AppleWebKit/537.36 (KHTML, like Gecko) Chrome/91.0.4472.124 Safari/537.36";
    "Mozilla/5.0 (X11; Linux x86_64) AppleWebKit/537.36 (KHTML, like Gecko) Chrome/91.0.4472.124 Safari/537.36";
    "Mozilla/5.0 (Windows NT 10.0; Win64; x64; rv:89.0) Gecko/20100101 Firefox/89.0";
    "Mozilla/5.0 (Macintosh; Intel Mac OS X 10.15; rv:89.0) Gecko/20100101 Firefox/89.0" ].

(** [userAgents[(attempt - 1) % userAgents.length]]; JS [%] truncates. *)
Definition getUserAgent (attempt : Z) : option string :=
  arrayAt userAgents (Z.rem (attempt - 1) (Z.of_nat (length userAgents))).

Definition isCloudflareError (error : AxiosError) : bool :=
  match err_response error with
  | None => false
  | Some response =>
      match resp_data response with
      | VString data =>
          includes data "cloudflare"
          || includes data "Just a moment"
          || includes data "Enable JavaScript and cookies"
      | _ => (resp_status response =? 403) || (resp_status response =? 429)
      end
  end.

Definition getErrorMessage (error : AxiosError) : string :=
  if isCloudflareError error then
    "News service is temporarily blocking requests. This usually resolves automatically. Please try again in a few minutes."
  else
    match responseStatus error with
    | Some 400 => "Invalid request parameters"
    | Some 401 => "Invalid API key"
    | Some 429 => "Rate limit exceeded. Please try again later."
    | Some 500 => "News service is temporarily unavailable"
    | _ => if String.eqb (err_message error) "" then "Unknown error occurred"
           else err_message error
    end.

(** The condition under which the catch block of [makeNewsRequest] waits
    before the next attempt: status 403 or 429, a connection reset, or a
    string body that mentions cloudflare. *)
Definition isRetryable (error : AxiosError) : bool :=
  bool_decide (responseStatus error = Some 403)
  || bool_decide (responseStatus error = Some 429)
  || bool_decide (err_code error = Some "ECONNRESET")
  || match err_response error with
     | Some response =>
         truthy (resp_data response)
         && match resp_data response with
            | VString data => includes data "cloudflare"
            | _ => false
            end
     | None => false
     end.

(** [error.response?.status || 500] *)
Definition statusOr500 (error : AxiosError) : Z :=
  match responseStatus error with
  | Some s => if s =? 0 then 500 else s
  | None => 500
  end.

(** The object literal thrown on the last attempt. *)
Definition classify (error : AxiosError) : ClassifiedError :=
  {| status := statusOr500 error;
     message := getErrorMessage error;
     isCloudflareIssue := isCloudflareError error |}.

(** [error.response?.data || error.message], the detail that is logged. *)
Definition errorDetail (error : AxiosError) : JsValue :=
  match err_response error with
  | Some response =>
      if truthy (resp_data response) then resp_data response
      else VString (err_message error)
  | None => VString (err_message error)
  end.

(** ** The retry controller *)

Section Controller.

(** [process.env.NEWS_API_KEY] *)
Variable NEWS_API_KEY : JsValue.

(** The news provider behind [newsApiClient.get]: what a call answers may
    depend on everything that happened before it. *)
Variable upstream : Trace -> string -> RequestConfig -> AxiosError + Response.

(** The request configuration of one attempt. *)
Definition attemptConfig (params : gmap string JsValue) (attempt : Z)
  : RequestConfig :=
  {| cfg_params := <["apiKey" := NEWS_API_KEY]> params;
     cfg_headers :=
       if 1 <? attempt then
         match getUserAgent attempt with
         | Some ua => {["User-Agent" := ua]}
         | None => ∅
         end
       else ∅ |}.

(** The body of the [for] loop, run for each remaining value of
    [attempt]; the trace is threaded through. *)
Fixpoint attemptLoop (endpoint : string) (params : gmap string JsValue)
    (retries : Z) (attempts : list Z) (t : Trace)
  : Completion JsValue ClassifiedError * Trace :=
  match attempts with
  | [] => (Return VUndefined, t)
  | attempt :: rest =>
      let config := attemptConfig params attempt in
      let t1 := t ++ [EvGet endpoint config] in
      match upstream t endpoint config with
      | inr response => (Return (resp_data response), t1)
      | inl error =>
          let t2 := t1 ++ [EvConsoleError attempt (errorDetail error)] in
          if isRetryable error && (attempt <? retries) then
            let waitTime := 2 ^ attempt * 1000 in
            attemptLoop endpoint params retries rest
              (t2 ++ [EvConsoleLog waitTime; EvDelay waitTime])
          else if attempt =? retries then
            (Throw (classify error), t2)
          else
            attemptLoop endpoint params retries rest t2
      end
  end.

(** [for (let attempt = 1; attempt <= retries; attempt++)] *)
Definition makeNewsRequest (endpoint : string) (params : gmap string JsValue)
    (retries : Z) (t : Trace)
  : Completion JsValue ClassifiedError * Trace :=
  attemptLoop endpoint params retries (seqZ 1 retries) t.

End Controller.

(** ** [parseInt] *)

(** The [StrWhiteSpaceChar] of one byte: TAB, LF, VT, FF, CR and the
    space. *)
Definition isWhiteSpace (c : ascii) : bool :=
  let n := Z.of_nat (nat_of_ascii c) in
  ((9 <=? n) && (n <=? 13)) || (n =? 32).

(** The first byte of a [StrWhiteSpaceChar] of two or three bytes. *)
Definition startsWideSpace (c : ascii) : bool :=
  let n := Z.of_nat (nat_of_ascii c) in
  (n =? 194) || (n =? 225) || (n =? 226) || (n =? 227) || (n =? 239).

(** U+00A0, the no-break space. *)
Definition isWideSpace2 (c1 c2 : ascii) : bool :=
  let n1 := Z.of_nat (nat_of_ascii c1) in
  let n2 := Z.of_nat (nat_of_ascii c2) in
  (n1 =? 194) && (n2 =? 160).

(** U+1680; U+2000 to U+200A, U+2028, U+2029, U+202F; U+205F; U+3000;
    U+FEFF. *)
Definition isWideSpace3 (c1 c2 c3 : ascii) : bool :=
  let n1 := Z.of_nat (nat_of_ascii c1) in
  let n2 := Z.of_nat (nat_of_ascii c2) in
  let n3 := Z.of_nat (nat_of_ascii c3) in
  ((n1 =? 225) && (n2 =? 154) && (n3 =? 128))
  || ((n1 =? 226) && (n2 =? 128)
      && (((128 <=? n3) && (n3 <=? 138))
          || (n3 =? 168) || (n3 =? 169) || (n3 =? 175)))
  || ((n1 =? 226) && (n2 =? 129) && (n3 =? 159))
  || ((n1 =? 227) && (n2 =? 128) && (n3 =? 128))
  || ((n1 =? 239) && (n2 =? 187) && (n3 =? 191)).

(** The string without its leading [StrWhiteSpaceChar]s. *)
Fixpoint trimStart (s : string) : string :=
  match s with
  | EmptyString => s
  | String c1 rest1 =>
      if isWhiteSpace c1 then trimStart rest1
      else if startsWideSpace c1 then
        match rest1 with
        | String c2 rest2 =>
            if isWideSpace2 c1 c2 then trimStart rest2
            else
              match rest2 with
              | String c3 rest3 =>
                  if isWideSpace3 c1 c2 c3 then trimStart rest3 else s
              | EmptyString => s
              end
        | EmptyString => s
        end
      else s
  end.

(** The Number value of the integer [z]: [z] itself below 2^53 in
    magnitude; beyond, the nearest double (a 53-bit significand, ties to
    the even one), which is an infinity from 2^1024 on. *)
Definition toDouble (z : Z) : JsNumber :=
  let a := Z.abs z in
  if a <? 2 ^ 53 then Num z
  else
    let e := Z.log2 a - 52 in
    let q := a / 2 ^ e in
    let r := a mod 2 ^ e in
    let half := 2 ^ (e - 1) in
    let q' := if (half <? r) || ((r =? half) && Z.odd q) then q + 1 else q in
    if 2 ^ 1024 <=? q' * 2 ^ e then Infinity (z <? 0)
    else Num (Z.sgn z * (q' * 2 ^ e)).

(** The value of [c] as a digit, for radices up to 36. *)
Definition digitValue (c : ascii) : option Z :=
  let n := Z.of_nat (nat_of_ascii c) in
  if (48 <=? n) && (n <=? 57) then Some (n - 48)
  else if (97 <=? n) && (n <=? 122) then Some (n - 87)
  else if (65 <=? n) && (n <=? 90) then Some (n - 55)
  else None.

(** The longest prefix of [s] made of radix-[radix] digits, as a number;
    [acc] is [None] until a digit has been read. *)
Fixpoint parseDigits (radix : Z) (s : string) (acc : option Z) : option Z :=
  match s with
  | EmptyString => acc
  | String c rest =>
      match digitValue c with
      | Some d =>
          if d <? radix
          then parseDigits radix rest (Some (radix * default 0 acc + d))
          else acc
      | None => acc
      end
  end.

(** [parseInt(s)] without a radix argument: leading white space, a sign, a
    [0x] prefix, then digits, read as the Number nearest to their value;
    [NaN] when no digit follows. *)
Definition parseIntString (s : string) : JsNumber :=
  let s1 := trimStart s in
  let '(sign, s2) :=
    match s1 with
    | String "-" rest => (-1, rest)
    | String "+" rest => (1, rest)
    | _ => (1, s1)
    end in
  let '(radix, s3) :=
    match s2 with
    | String "0" (String "x" rest) => (16, rest)
    | String "0" (String "X" rest) => (16, rest)
    | _ => (10, s2)
    end in
  match parseDigits radix s3 None with
  | Some v => toDouble (sign * v)
  | None => NaN
  end.

(** [String(v)]. An integer below 2^53 in magnitude prints as its decimal
    numeral, which is all the handlers print (the defaults 1 and 10);
    larger numbers, which JS prints with their shortest distinguishing
    digits and in exponent notation from 10^21 on, are outside what is
    modelled. *)
Fixpoint toString (v : JsValue) : string :=
  match v with
  | VUndefined => "undefined"
  | VNull => "null"
  | VBool true => "true"
  | VBool false => "false"
  | VNumber NaN => "NaN"
  | VNumber (Num z) => NilZero.string_of_int (Z.to_int z)
  | VNumber (Infinity false) => "Infinity"
  | VNumber (Infinity true) => "-Infinity"
  | VString s => s
  | VArray items =>
      String.concat ","
        (List.map (fun item =>
                     match item with
                     | VUndefined | VNull => ""
                     | _ => toString item
                     end) items)
  | VObject _ => "[object Object]"
  end.

Definition parseInt (v : JsValue) : JsNumber := parseIntString (toString v).

(** ** The route handlers *)

(** An inbound request: the parsed query string and the path parameters. *)
Record Req : Type := mkReq {
  req_query : gmap string string;
  req_params : gmap string string
}.

(** The JSON bodies the handlers send. *)
Inductive Envelope : Type :=
  | Success (data : JsValue) (timestamp : string)
  | Failure (error : string) (msg : string) (cloudflare : bool) (retryAfter : Z)
  | Rejected (error : string).

Record Res : Type := mkRes {
  res_status : Z;
  res_body : Envelope
}.

(** A possibly [undefined] string as a JS value. *)
Definition optString (o : option string) : JsValue :=
  match o with Some s => VString s | None => VUndefined end.

(** The value bound by [const { page = d } = req.query]. *)
Definition withDefault (d : Z) (o : option string) : JsValue :=
  match o with Some s => VString s | None => VNumber (Num d) end.

(** The catch block shared by the five handlers:
    [res.status(error.status || 500).json({ success: false, error: label, ... })]. *)
Definition sendFailure (label : string) (error : ClassifiedError) : Res :=
  {| res_status := if status error =? 0 then 500 else status error;
     res_body :=
       Failure label (message error)
         (isCloudflareIssue error || false)
         (if isCloudflareIssue error then 300 else 60) |}.

(** The five routes of the controller. *)
Inductive Route : Type :=
  | TrendingNews
  | NewsByCategory
  | GeneralNews
  | PoliticsNews
  | SearchNews.

Section Handlers.

Variable NEWS_API_KEY : JsValue.
Variable upstream : Trace -> string -> RequestConfig -> AxiosError + Response.

(** [new Date().toISOString()] *)
Variable now : string.

(** The common tail of the handlers: await the fetch (with the default
    [retries = 3]), then [res.json] the payload or the failure. *)
Definition respond (label endpoint : string) (params : gmap string JsValue)
    (t : Trace) : Res * Trace :=
  match makeNewsRequest NEWS_API_KEY upstream endpoint params 3 t with
  | (Return data, t') =>
      ({| res_status := 200; res_body := Success data now |}, t')
  | (Throw error, t') => (sendFailure label error, t')
  end.

Definition pageOf (req : Req) : JsValue :=
  VNumber (parseInt (withDefault 1 (req_query req !! "page"))).

Definition pageSizeOf (req : Req) : JsValue :=
  VNumber (parseInt (withDefault 10 (req_query req !! "pageSize"))).

Definition getTrendingNews (req : Req) (t : Trace) : Res * Trace :=
  respond "Failed to fetch trending news" "/top-headlines"
    (<["country" := VString "us"]>
     (<["category" := VString "general"]>
      (<["page" := pageOf req]>
       (<["pageSize" := pageSizeOf req]> ∅)))) t.

Definition getNewsByCategory (req : Req) (t : Trace) : Res * Trace :=
  let category := optString (req_params req !! "category") in
  respond ("Failed to fetch " +:+ toString category +:+ " news")
    "/top-headlines"
    (<["country" := VString "us"]>
     (<["category" := category]>
      (<["page" := pageOf req]>
       (<["pageSize" := pageSizeOf req]> ∅)))) t.

Definition getGeneralNews (req : Req) (t : Trace) : Res * Trace :=
  respond "Failed to fetch general news" "/top-headlines"
    (<["country" := VString "us"]>
     (<["page" := pageOf req]>
      (<["pageSize" := pageSizeOf req]> ∅))) t.

Definition getPoliticsNews (req : Req) (t : Trace) : Res * Trace :=
  respond "Failed to fetch politics news" "/everything"
    (<["q" := VString "politics"]>
     (<["language" := VString "en"]>
      (<["sortBy" := VString "publishedAt"]>
       (<["page" := pageOf req]>
        (<["pageSize" := pageSizeOf req]> ∅))))) t.

Definition searchNews (req : Req) (t : Trace) : Res * Trace :=
  let query := optString (req_query req !! "q") in
  if negb (truthy query) then
    ({| res_status := 400; res_body := Rejected "Search query is required" |}, t)
  else
    respond "Failed to search news" "/everything"
      (<["q" := query]>
       (<["language" := VString "en"]>
        (<["sortBy" := VString "relevancy"]>
         (<["page" := pageOf req]>
          (<["pageSize" := pageSizeOf req]> ∅))))) t.

Definition handle (r : Route) : Req -> Trace -> Res * Trace :=
  match r with
  | TrendingNews => getTrendingNews
  | NewsByCategory => getNewsByCategory
  | GeneralNews => getGeneralNews
  | PoliticsNews => getPoliticsNews
  | SearchNews => searchNews
  end.

End Handlers.

(** ** The schedule the specification asks for *)

Definition isLog (e : Event) : bool :=
  match e with
  | EvConsoleError _ _ | EvConsoleLog _ => true
  | _ => false
  end.

(** A trace without its console output: the upstream calls and the waits,
    in the order they happened. *)
Fixpoint timeline (t : Trace) : Trace :=
  match t with
  | [] => []
  | e :: t' => if isLog e then timeline t' else e :: timeline t'
  end.

(** Following the specification's words: one call per attempt, and a wait
    of [2^k * 1000] ms between attempt [k] and attempt [k + 1]. *)
Fixpoint backoffSchedule (NEWS_API_KEY : JsValue) (endpoint : string)
    (params : gmap string JsValue) (attempts : list Z) : Trace :=
  match attempts with
  | [] => []
  | k :: rest =>
      EvGet endpoint (attemptConfig NEWS_API_KEY params k)
      :: match rest with
         | [] => []
         | _ => EvDelay (2 ^ k * 1000) :: backoffSchedule NEWS_API_KEY endpoint params rest
         end
  end.

(** Following the specification's words: a rate limit, or a 403 block. *)
Definition transientStatus (error : AxiosError) : Prop :=
  responseStatus error = Some 429 \/ responseStatus error = Some 403.

(** Any of the three markers [isCloudflareError] looks for in a string
    body. *)
Definition hasChallengeMarker (data : string) : bool :=
  includes data "cloudflare"
  || includes data "Just a moment"
  || includes data "Enable JavaScript and cookies".

(** A response body that carries no challenge marker. *)
Definition noChallengeMarker (data : JsValue) : Prop :=
  match data with
  | VString s => hasChallengeMarker s = false
  | _ => True
  end.

(** How axios rejects a call that ran into the instance's [timeout]: no
    response was received, and the code is [ECONNABORTED] ([ETIMEDOUT]
    under [clarifyTimeoutError]). *)
Definition isTimeout (error : AxiosError) : Prop :=
  err_response error = None
  /\ (err_code error = Some "ECONNABORTED" \/ err_code error = Some "ETIMEDOUT").

(** The first character of a string that [parseInt] cannot read a decimal
    number from: an ASCII character that is no white space to skip, no
    sign and no digit. *)
Definition nonNumericStart (c : ascii) : bool :=
  (Z.of_nat (nat_of_ascii c) <? 128)
  && negb (isWhiteSpace c)
  && negb (Ascii.eqb c "-") && negb (Ascii.eqb c "+")
  && match digitValue c with
     | Some d => 10 <=? d
     | None => true
     end.

(** ** Scenarios *)

Module Scenario.

Definition apiKey : JsValue := VString "0123456789abcdef".

Definition payload : JsValue :=
  VObject [ ("status", VString "ok");
            ("totalResults", VNumber (Num 0));
            ("articles", VArray []) ].

Definition unauthorized : AxiosError :=
  {| err_response :=
       Some {| resp_status := 401;
               resp_data := VObject [ ("status", VString "error");
                                      ("code", VString "apiKeyInvalid") ] |};
     err_code := Some "ERR_BAD_REQUEST";
     err_message := "Request failed with status code 401" |}.

Definition rateLimited : AxiosError :=
  {| err_response :=
       Some {| resp_status := 429; resp_data := VString "Too Many Requests" |};
     err_code := Some "ERR_BAD_REQUEST";
     err_message := "Request failed with status code 429" |}.

Definition forbiddenPlain : AxiosError :=
  {| err_response :=
       Some {| resp_status := 403; resp_data := VString "Forbidden" |};
     err_code := Some "ERR_BAD_REQUEST";
     err_message := "Request failed with status code 403" |}.

Definition cloudflareBlock : AxiosError :=
  {| err_response :=
       Some {| resp_status := 403;
               resp_data := VString "<title>Attention Required! | cloudflare</title>" |};
     err_code := Some "ERR_BAD_REQUEST";
     err_message := "Request failed with status code 403" |}.

Definition serverError : AxiosError :=
  {| err_response :=
       Some {| resp_status := 500; resp_data := VString "Internal Server Error" |};
     err_code := Some "ERR_BAD_RESPONSE";
     err_message := "Request failed with status code 500" |}.

Definition timedOut : AxiosError :=
  {| err_response := None;
     err_code := Some "ECONNABORTED";
     err_message := "timeout of 30000ms exceeded" |}.

(** An upstream that fails every call the same way. *)
Definition alwaysFails (error : AxiosError)
  : Trace -> string -> RequestConfig -> AxiosError + Response :=
  fun _ _ _ => inl error.

(** An upstream that answers every call with the payload. *)
Definition healthy : Trace -> string -> RequestConfig -> AxiosError + Response :=
  fun _ _ _ => inr {| resp_status := 200; resp_data := payload |}.

(** An upstream that fails the first call it sees and answers the rest. *)
Definition failsOnce (error : AxiosError)
  : Trace -> string -> RequestConfig -> AxiosError + Response :=
  fun h _ _ =>
    match calls h with
    | [] => inl error
    | _ => inr {| resp_status := 200; resp_data := payload |}
    end.

Definition emptyReq : Req := {| req_query := ∅; req_params := ∅ |}.

Definition searchReq (q : string) : Req :=
  {| req_query := {["q" := q]}; req_params := ∅ |}.

Definition pagedReq (page : string) : Req :=
  {| req_query := {["page" := page]}; req_params := ∅ |}.

End Scenario.

(** ** The minimal controller *)

(** The single-attempt variant of the controller: one call per fetch, the
    API key in a header of the instance. *)
Module Minimal.

(** The object thrown by this variant's [makeNewsRequest]. *)
Record PlainError : Type := mkPlain {
  status : Z;
  message : string
}.

(** The JSON bodies this variant sends. *)
Inductive Envelope : Type :=
  | Success (data : JsValue) (timestamp : string)
  | Failed (msg : string).

Record Res : Type := mkRes {
  res_status : Z;
  res_body : Envelope
}.

(** [timeout: 10000] of [axios.create], in milliseconds. *)
Definition clientTimeout : Z := 10000.

Section Controller.

Variable NEWS_API_KEY : JsValue.
Variable upstream : Trace -> string -> RequestConfig -> AxiosError + Response.
Variable now : string.

Definition defaultHeaders : gmap string JsValue :=
  <["X-Api-Key" := NEWS_API_KEY]> (<["User-Agent" := VString "Axios/1.5.0"]> ∅).

(** The message of the thrown object: the text of the error, replaced for
    the statuses 401, 429 and 500. *)
Definition errorMessage (error : AxiosError) : string :=
  let status := responseStatus error in
  let message :=
    if String.eqb (err_message error) "" then "Unknown error"
    else err_message error in
  let message :=
    if bool_decide (status = Some 401) then "Invalid API key" else message in
  let message :=
    if bool_decide (status = Some 429) then "Rate limit exceeded" else message in
  let message :=
    if bool_decide (status = Some 500) then "News service temporarily unavailable"
    else message in
  message.

(** [params = {}] applies when the argument is left out. *)
Definition makeNewsRequest (endpoint : string)
    (params : option (gmap string JsValue)) (t : Trace)
  : Completion JsValue PlainError * Trace :=
  let config := {| cfg_params := default ∅ params; cfg_headers := ∅ |} in
  let t1 := t ++ [EvGet endpoint config] in
  match upstream t endpoint config with
  | inr response => (Return (resp_data response), t1)
  | inl error =>
      (Throw {| status := statusOr500 error; message := errorMessage error |}, t1)
  end.

(** The common tail of the handlers: [res.json] the payload, or
    [res.status(error.status).json({ success: false, message })]. *)
Definition respond (endpoint : string) (params : gmap string JsValue)
    (t : Trace) : Res * Trace :=
  match makeNewsRequest endpoint (Some params) t with
  | (Return data, t') =>
      ({| res_status := 200; res_body := Success data now |}, t')
  | (Throw error, t') =>
      ({| res_status := status error; res_body := Failed (message error) |}, t')
  end.

Definition getTrendingNews (req : Req) (t : Trace) : Res * Trace :=
  respond "/top-headlines"
    (<["country" := VString "us"]>
     (<["page" := pageOf req]>
      (<["pageSize" := pageSizeOf req]> ∅))) t.

Definition getNewsByCategory (req : Req) (t : Trace) : Res * Trace :=
  let category := optString (req_params req !! "category") in
  respond "/top-headlines"
    (<["country" := VString "us"]>
     (<["category" := category]>
      (<["page" := pageOf req]>
       (<["pageSize" := pageSizeOf req]> ∅)))) t.

Definition getGeneralNews (req : Req) (t : Trace) : Res * Trace :=
  respond "/top-headlines"
    (<["country" := VString "us"]>
     (<["page" := pageOf req]>
      (<["pageSize" := pageSizeOf req]> ∅))) t.

Definition getPoliticsNews (req : Req) (t : Trace) : Res * Trace :=
  respond "/everything"
    (<["q" := VString "politics"]>
     (<["language" := VString "en"]>
      (<["sortBy" := VString "publishedAt"]>
       (<["page" := pageOf req]>
        (<["pageSize" := pageSizeOf req]> ∅))))) t.

Definition searchNews (req : Req) (t : Trace) : Res * Trace :=
  let query := optString (req_query req !! "q") in
  if negb (truthy query) then
    ({| res_status := 400; res_body := Failed "Search query is required" |}, t)
  else
    respond "/everything"
      (<["q" := query]>
       (<["language" := VString "en"]>
        (<["sortBy" := VString "relevancy"]>
         (<["page" := pageOf req]>
          (<["pageSize" := pageSizeOf req]> ∅))))) t.

Definition handle (r : Route) : Req -> Trace -> Res * Trace :=
  match r with
  | TrendingNews => getTrendingNews
  | NewsByCategory => getNewsByCategory
  | GeneralNews => getGeneralNews
  | PoliticsNews => getPoliticsNews
  | SearchNews => searchNews
  end.

End Controller.

End Minimal.

(** ** The auth middleware *)

(** [s.slice(n)] *)
Fixpoint dropString (n : nat) (s : string) : string :=
  match n, s with
  | O, _ => s
  | S n', String _ rest => dropString n' rest
  | S _, EmptyString => EmptyString
  end.

(** [s.replace(pat, rep)] for a string pattern: the first occurrence of
    [pat] is replaced, the rest of [s] is kept. *)
Fixpoint replaceFirst (pat rep s : string) : string :=
  if String.prefix pat s then rep +:+ dropString (String.length pat) s
  else match s with
       | EmptyString => EmptyString
       | String c rest => String c (replaceFirst pat rep rest)
       end.

(** [req.header('Authorization')?.replace('Bearer ', '')] *)
Definition bearerToken (authorization : option string) : option string :=
  replaceFirst "Bearer " "" <$> authorization.

(** An error thrown by [jwt.verify] or by the user lookup, as far as the
    catch blocks look at it. *)
Record ThrownError : Type := mkThrown {
  name : string
}.

(** What a middleware does with the request: it answers, or it calls
    [next()] after setting [req.user]. *)
Inductive AuthOutcome (User : Type) : Type :=
  | Reject (code : Z) (msg : string)
  | Next (reqUser : option User).
Arguments Reject {User} code msg.
Arguments Next {User} reqUser.

Section AuthMiddleware.

(** The user documents of the [User] model and their [emailVerified]
    field. *)
Variable User : Type.
Variable emailVerified : User -> bool.

(** [jwt.verify(token, process.env.JWT_SECRET)]: throws, or returns the
    decoded payload, of which only [userId] (possibly absent) is read. *)
Variable jwtVerify : string -> ThrownError + option string.

(** [await User.findById(id).select('-password')]: throws, or resolves to
    a document or [null]. *)
Variable findById : option string -> ThrownError + option User.

(** The catch block of the two strict middlewares. *)
Definition rejectThrown (error : ThrownError) : AuthOutcome User :=
  if String.eqb (name error) "TokenExpiredError"
  then Reject 401 "Token expired"
  else Reject 401 "Token is not valid".

Definition authMiddleware (authorization : option string) : AuthOutcome User :=
  let token := bearerToken authorization in
  if negb (truthy (optString token)) then
    Reject 401 "No token provided, authorization denied"
  else
    match jwtVerify (default "" token) with
    | inl error => rejectThrown error
    | inr userId =>
        match findById userId with
        | inl error => rejectThrown error
        | inr None => Reject 401 "Token is not valid - user not found"
        | inr (Some user) =>
            if negb (emailVerified user) then
              Reject 403
                "Email not verified, please verify your email to access this resource"
            else Next (Some user)
        end
    end.

Definition authMiddlewareAllowUnverified (authorization : option string)
  : AuthOutcome User :=
  let token := bearerToken authorization in
  if negb (truthy (optString token)) then
    Reject 401 "No token provided, authorization denied"
  else
    match jwtVerify (default "" token) with
    | inl error => rejectThrown error
    | inr userId =>
        match findById userId with
        | inl error => rejectThrown error
        | inr None => Reject 401 "Token is not valid - user not found"
        | inr (Some user) => Next (Some user)
        end
    end.

Definition optionalAuth (authorization : option string) : AuthOutcome User :=
  let token := bearerToken authorization in
  if negb (truthy (optString token)) then Next None
  else
    match jwtVerify (default "" token) with
    | inl _ => Next None
    | inr userId =>
        match findById userId with
        | inl _ => Next None
        | inr user => Next user
        end
    end.

End AuthMiddleware.

(** ** The database connection *)

(** The module state of [config/db.js] together with the part of mongoose
    it reads: [mongoose.connection.readyState], the cached [connPromise]
    (a promise is named by the number of the [mongoose.connect] call that
    made it), and how many such calls were made and have settled. *)
Record DbState : Type := mkDb {
  readyState : Z;
  connPromise : option nat;
  connects : nat;
  settled : nat
}.

(** What a call of [connectToDB] hands back. *)
Inductive DbResult : Type :=
  | Connection
  | Pending (promise : nat)
  | MissingUri.

(** One call of [connectToDB], up to its first suspension; [uri] is
    [process.env.MONGODB_URI]. *)
Definition connectToDB (uri : option string) (s : DbState) : DbResult * DbState :=
  if readyState s =? 1 then (Connection, s)
  else
    match connPromise s with
    | Some p => (Pending p, s)
    | None =>
        if negb (truthy (optString uri)) then (MissingUri, s)
        else
          (Pending (connects s),
           {| readyState := readyState s;
              connPromise := Some (connects s);
              connects := S (connects s);
              settled := settled s |})
    end.

(** The [finally] callback of the promise made by [mongoose.connect]. *)
Definition connectSettled (s : DbState) : DbState :=
  {| readyState := readyState s;
     connPromise := None;
     connects := connects s;
     settled := S (settled s) |}.

(** What can happen to the module between two turns of the event loop: a
    caller invokes [connectToDB]; a connection attempt that is under way
    settles; mongoose moves its [readyState]. *)
Inductive DbEvent : Type :=
  | Called (uri : option string)
  | Settled
  | ReadyState (r : Z).

(** [Settled] can only happen while a [mongoose.connect] is under way. *)
Definition dbStep (s : DbState) (e : DbEvent) : option DbState :=
  match e with
  | Called uri => Some (connectToDB uri s).2
  | Settled =>
      if (settled s <? connects s)%nat then Some (connectSettled s) else None
  | ReadyState r =>
      Some {| readyState := r;
              connPromise := connPromise s;
              connects := connects s;
              settled := settled s |}
  end.

Fixpoint dbRun (s : DbState) (events : list DbEvent) : option DbState :=
  match events with
  | [] => Some s
  | e :: rest =>
      match dbStep s e with
      | Some s' => dbRun s' rest
      | None => None
      end
  end.

(** The module as it is loaded: [connPromise = null], nothing attempted;
    mongoose starts disconnected. *)
Definition dbInitial : DbState :=
  {| readyState := 0; connPromise := None; connects := 0; settled := 0 |}.

(** What every reachable state of the module satisfies. *)
Definition dbInvariant (s : DbState) : Prop :=
  match connPromise s with
  | None => connects s = settled s
  | Some p => connects s = S (settled s) /\ p = settled s
  end.

(** ** Measures of a trace *)

(** The time a trace spends waiting, in milliseconds. *)
Definition totalDelay (t : Trace) : Z := foldr Z.add 0 (delays t).

(** Every wait of the trace is directly followed by an upstream call
    (console output aside). *)
Fixpoint waitsLeadToCalls (t : Trace) : bool :=
  match t with
  | [] => true
  | EvDelay _ :: rest =>
      match timeline rest with
      | EvGet _ _ :: _ => waitsLeadToCalls rest
      | _ => false
      end
  | _ :: rest => waitsLeadToCalls rest
  end.

(** The most a run over [attempts] can wait: [2^k * 1000] ms after each
    attempt [k] below [retries]. *)
Fixpoint waitBudget (retries : Z) (attempts : list Z) : Z :=
  match attempts with
  | [] => 0
  | k :: rest =>
      (if k <? retries then 2 ^ k * 1000 else 0) + waitBudget retries rest
  end.

(** Every attempt of the list that is not the last allowed one has a
    successor in the list. *)
Fixpoint hasNext (retries : Z) (attempts : list Z) : Prop :=
  match attempts with
  | [] => True
  | attempt :: rest => (attempt < retries -> rest <> []) /\ hasNext retries rest
  end.

(** ** More scenarios *)

Module AuthScenario.

Record Account : Type := mkAccount {
  account_id : string;
  verified : bool
}.

Definition alice : Account := {| account_id := "u1"; verified := true |}.
Definition bob : Account := {| account_id := "u2"; verified := false |}.

(** Tokens "tok-alice" and "tok-bob" verify; "tok-old" has expired. *)
Definition jwtVerify (token : string) : ThrownError + option string :=
  if String.eqb token "tok-alice" then inr (Some "u1")
  else if String.eqb token "tok-bob" then inr (Some "u2")
  else if String.eqb token "tok-old" then inl {| name := "TokenExpiredError" |}
  else inl {| name := "JsonWebTokenError" |}.

Definition findById (id : option string) : ThrownError + option Account :=
  match id with
  | Some "u1" => inr (Some alice)
  | Some "u2" => inr (Some bob)
  | _ => inr None
  end.

End AuthScenario.

Module ExtraScenario.

(** A challenge page served under a 503. *)
Definition challengePage : AxiosError :=
  {| err_response :=
       Some {| resp_status := 503;
               resp_data := VString "<title>Just a moment...</title>" |};
     err_code := Some "ERR_BAD_RESPONSE";
     err_message := "Request failed with status code 503" |}.

Definition mongoUri : option string := Some "mongodb://localhost:27017/news".

(** Two callers, a change of [readyState], a settlement, a third caller. *)
Definition dbEvents : list DbEvent :=
  [Called mongoUri; Called mongoUri; ReadyState 2; Settled; ReadyState 1;
   Called None].

(** Callers and state changes while the first connection attempt is under
    way. *)
Definition dbQuietEvents : list DbEvent :=
  [Called None; ReadyState 2; Called mongoUri; ReadyState 0; Called mongoUri].

End ExtraScenario.

(** ** Traces *)

Lemma calls_app (t1 t2 : Trace) : calls (t1 ++ t2) = calls t1 ++ calls t2.
Proof.
  induction t1 as [|e t1 IH]; simpl; [reflexivity|].
  destruct e; simpl; rewrite IH; reflexivity.
Qed.

Lemma delays_app (t1 t2 : Trace) : delays (t1 ++ t2) = delays t1 ++ delays t2.
Proof.
  induction t1 as [|e t1 IH]; simpl; [reflexivity|].
  destruct e; simpl; rewrite IH; reflexivity.
Qed.

Lemma timeline_app (t1 t2 : Trace) :
  timeline (t1 ++ t2) = timeline t1 ++ timeline t2.
Proof.
  induction t1 as [|e t1 IH]; simpl; [reflexivity|].
  destruct (isLog e); simpl; rewrite IH; reflexivity.
Qed.

Lemma calls_timeline (t : Trace) : calls (timeline t) = calls t.
Proof.
  induction t as [|e t IH]; simpl; [reflexivity|].
  destruct e; simpl; rewrite ?IH; reflexivity.
Qed.

Lemma delays_timeline (t : Trace) : delays (timeline t) = delays t.
Proof.
  induction t as [|e t IH]; simpl; [reflexivity|].
  destruct e; simpl; rewrite ?IH; reflexivity.
Qed.

Create Rewrite HintDb trace.
#[local] Hint Rewrite calls_app delays_app timeline_app : trace.
#[local] Hint Rewrite <- app_assoc : trace.

(** ** The schedule *)

Lemma backoffSchedule_snoc key ep params (l : list Z) (k r : Z) :
  backoffSchedule key ep params (k :: l ++ [r])
  = EvGet ep (attemptConfig key params k) :: EvDelay (2 ^ k * 1000)
    :: backoffSchedule key ep params (l ++ [r]).
Proof. destruct l; reflexivity. Qed.

Lemma calls_backoffSchedule key ep params (l : list Z) :
  calls (backoffSchedule key ep params l)
  = (fun k => (ep, attemptConfig key params k)) <$> l.
Proof.
  induction l as [|k l IH]; [reflexivity|].
  destruct l as [|k' l]; [reflexivity|].
  change (calls (backoffSchedule key ep params (k :: k' :: l)))
    with ((ep, attemptConfig key params k)
            :: calls (backoffSchedule key ep params (k' :: l))).
  rewrite IH. reflexivity.
Qed.

Lemma delays_backoffSchedule key ep params (l : list Z) (r : Z) :
  delays (backoffSchedule key ep params (l ++ [r]))
  = (fun k => 2 ^ k * 1000) <$> l.
Proof.
  induction l as [|k l IH]; [reflexivity|].
  change ((k :: l) ++ [r]) with (k :: l ++ [r]).
  rewrite backoffSchedule_snoc. simpl. rewrite IH. reflexivity.
Qed.

(** ** Classification *)

Lemma isRetryable_transientStatus (e : AxiosError) :
  transientStatus e -> isRetryable e = true.
Proof.
  unfold isRetryable. intros [H|H]; rewrite H.
  - rewrite (bool_decide_eq_true_2 (Some 429 = Some 429) eq_refl).
    rewrite orb_true_r. reflexivity.
  - rewrite (bool_decide_eq_true_2 (Some 403 = Some 403) eq_refl).
    reflexivity.
Qed.

(** ** The retry loop *)

Section Loop.

Variable NEWS_API_KEY : JsValue.
Variable upstream : Trace -> string -> RequestConfig -> AxiosError + Response.
Variables (endpoint : string) (params : gmap string JsValue) (retries : Z).

Let loop := attemptLoop NEWS_API_KEY upstream endpoint params retries.
Let config := attemptConfig NEWS_API_KEY params.

(** A success ends the loop at once, whatever attempts remain. *)
Lemma attemptLoop_success attempt rest t response :
  upstream t endpoint (config attempt) = inr response ->
  loop (attempt :: rest) t
  = (Return (resp_data response), t ++ [EvGet endpoint (config attempt)]).
Proof. intros H. unfold loop, config in *. simpl. rewrite H. reflexivity. Qed.

(** A failure the catch block neither waits for nor throws on: the loop
    moves on to the next attempt at once. *)
Lemma attemptLoop_falls_through attempt rest t error :
  upstream t endpoint (config attempt) = inl error ->
  isRetryable error = false ->
  attempt <> retries ->
  loop (attempt :: rest) t
  = loop rest (t ++ [EvGet endpoint (config attempt);
                     EvConsoleError attempt (errorDetail error)]).
Proof.
  intros Hup Hre Hne. unfold loop, config in *. simpl. rewrite Hup, Hre. simpl.
  apply Z.eqb_neq in Hne. rewrite Hne, <- app_assoc. reflexivity.
Qed.

(** One call per attempt at most. *)
Lemma attemptLoop_calls_bound attempts t :
  (length (calls (loop attempts t).2) <= length (calls t) + length attempts)%nat.
Proof.
  unfold loop. revert t.
  induction attempts as [|attempt rest IH]; intros t; simpl; [lia|].
  destruct (upstream t endpoint _) as [error|response]; simpl.
  - destruct (isRetryable error && (attempt <? retries)).
    + etransitivity; [apply IH|].
      autorewrite with trace. rewrite !length_app. simpl. lia.
    + destruct (attempt =? retries); simpl.
      * autorewrite with trace. rewrite !length_app. simpl. lia.
      * etransitivity; [apply IH|].
        autorewrite with trace. rewrite !length_app. simpl. lia.
  - autorewrite with trace. rewrite !length_app. simpl. lia.
Qed.

(** Whatever is thrown is the classification of the failure of the
    attempt numbered [retries]. *)
Lemma attemptLoop_throw_inv attempts t c t' :
  loop attempts t = (Throw c, t') ->
  exists h error,
    upstream h endpoint (config retries) = inl error
    /\ c = classify error
    /\ t' = h ++ [EvGet endpoint (config retries);
                  EvConsoleError retries (errorDetail error)].
Proof.
  unfold loop, config. revert t.
  induction attempts as [|attempt rest IH]; intros t; simpl; [discriminate|].
  destruct (upstream t endpoint _) as [error|response] eqn:Hup;
    [|discriminate].
  destruct (isRetryable error && (attempt <? retries)); [apply IH|].
  destruct (attempt =? retries) eqn:Hlast; [|apply IH].
  apply Z.eqb_eq in Hlast. subst attempt.
  intros [= <- <-]. exists t, error.
  rewrite <- app_assoc. auto.
Qed.

(** The loop is silent about waits unless a failure is retryable. *)
Lemma attemptLoop_no_delay attempts t :
  (forall h cfg error, upstream h endpoint cfg = inl error ->
                       isRetryable error = false) ->
  delays (loop attempts t).2 = delays t.
Proof.
  intros Hno. unfold loop. revert t.
  induction attempts as [|attempt rest IH]; intros t; simpl; [reflexivity|].
  destruct (upstream t endpoint _) as [error|response] eqn:Hup; simpl.
  - rewrite (Hno _ _ _ Hup). simpl.
    destruct (attempt =? retries); simpl.
    + autorewrite with trace. simpl. rewrite app_nil_r. reflexivity.
    + rewrite IH. autorewrite with trace. simpl. rewrite app_nil_r. reflexivity.
  - autorewrite with trace. simpl. rewrite app_nil_r. reflexivity.
Qed.

(** When every attempt fails, the attempt numbered [retries] throws. *)
Lemma attemptLoop_all_fail l t :
  (forall h cfg, exists error, upstream h endpoint cfg = inl error) ->
  exists c, (loop (l ++ [retries]) t).1 = Throw c.
Proof.
  intros Hfail. unfold loop. revert t.
  induction l as [|attempt l IH]; intros t; simpl.
  - destruct (Hfail t (config retries)) as [error Hup].
    unfold config in Hup. rewrite Hup.
    rewrite Z.ltb_irrefl, andb_false_r, Z.eqb_refl. eauto.
  - destruct (Hfail t (config attempt)) as [error Hup].
    unfold config in Hup. rewrite Hup.
    destruct (isRetryable error && (attempt <? retries)); [apply IH|].
    destruct (attempt =? retries); [simpl; eauto | apply IH].
Qed.

(** Retryable failures on every attempt: the loop follows the schedule
    and throws the classification of the last failure. *)
Lemma attemptLoop_transient l t :
  (forall a, a ∈ l -> a < retries) ->
  (forall h cfg, exists error,
      upstream h endpoint cfg = inl error /\ isRetryable error = true) ->
  exists h error,
    upstream h endpoint (config retries) = inl error
    /\ isRetryable error = true
    /\ (loop (l ++ [retries]) t).1 = Throw (classify error)
    /\ timeline (loop (l ++ [retries]) t).2
       = timeline t
         ++ backoffSchedule NEWS_API_KEY endpoint params (l ++ [retries]).
Proof.
  intros Hlt Hfail. unfold loop. revert t.
  induction l as [|attempt l IH]; intros t.
  - destruct (Hfail t (config retries)) as (error & Hup & Hre).
    exists t, error. simpl. unfold config in Hup. rewrite Hup.
    rewrite Z.ltb_irrefl, andb_false_r, Z.eqb_refl. simpl.
    autorewrite with trace. simpl. auto.
  - destruct (Hfail t (config attempt)) as (error & Hup & Hre).
    assert (Ha : attempt < retries) by (apply Hlt; left).
    destruct (IH (fun a Hin => Hlt a (list_elem_of_further _ _ _ Hin))
                (((t ++ [EvGet endpoint (config attempt)])
                  ++ [EvConsoleError attempt (errorDetail error)])
                 ++ [EvConsoleLog (2 ^ attempt * 1000);
                     EvDelay (2 ^ attempt * 1000)]))
      as (h & error' & Hup' & Hre' & Hres & Htl).
    exists h, error'.
    change ((attempt :: l) ++ [retries]) with (attempt :: l ++ [retries]).
    rewrite backoffSchedule_snoc. simpl.
    unfold config in Hup. rewrite Hup, Hre.
    apply Z.ltb_lt in Ha. rewrite Ha. simpl.
    unfold config in Hres, Htl. rewrite Hres, Htl.
    autorewrite with trace. simpl. auto.
Qed.

End Loop.

(** What a fetch throws, and what its trace then ends with. *)
Lemma makeNewsRequest_throw_inv
    (key : JsValue) (up : Trace -> string -> RequestConfig -> AxiosError + Response)
    (ep : string) (params : gmap string JsValue) (retries : Z) (t : Trace)
    (c : ClassifiedError) :
  (makeNewsRequest key up ep params retries t).1 = Throw c ->
  exists h e,
    up h ep (attemptConfig key params retries) = inl e
    /\ (makeNewsRequest key up ep params retries t).2
       = h ++ [EvGet ep (attemptConfig key params retries);
               EvConsoleError retries (errorDetail e)]
    /\ c = classify e.
Proof.
  unfold makeNewsRequest. intros Hc.
  destruct (attemptLoop key up ep params retries (seqZ 1 retries) t)
    as [r t'] eqn:Hrun.
  simpl in Hc. subst r.
  destruct (attemptLoop_throw_inv _ _ _ _ _ _ _ _ _ Hrun)
    as (h & e & Hup & -> & ->).
  exists h, e. auto.
Qed.

(** ** The attempts of a fetch *)

Lemma seqZ_snoc (n : Z) : 1 <= n -> seqZ 1 n = seqZ 1 (n - 1) ++ [n].
Proof.
  intros Hn. replace n with ((n - 1) + 1) at 1 by lia.
  rewrite seqZ_app by lia.
  replace (1 + (n - 1)) with n by lia. reflexivity.
Qed.

Lemma seqZ_below (n a : Z) : a ∈ seqZ 1 (n - 1) -> a < n.
Proof. rewrite elem_of_seqZ. lia. Qed.

Lemma isTimeout_not_retryable (e : AxiosError) :
  isTimeout e -> isRetryable e = false.
Proof.
  intros [Hresp Hcode]. unfold isRetryable, responseStatus.
  rewrite Hresp. simpl.
  destruct Hcode as [-> | ->]; reflexivity.
Qed.

Lemma isTimeout_classify (e : AxiosError) :
  isTimeout e ->
  status (classify e) = 500 /\ isCloudflareIssue (classify e) = false.
Proof.
  intros [Hresp _]. unfold classify, statusOr500, responseStatus, isCloudflareError.
  rewrite Hresp. simpl. auto.
Qed.

(** The rotation is a modular index into the pool. *)
Lemma getUserAgent_modular (n : nat) :
  getUserAgent (Z.of_nat n + 1) = userAgents !! (n mod length userAgents)%nat.
Proof.
  unfold getUserAgent, arrayAt.
  replace (Z.of_nat n + 1 - 1) with (Z.of_nat n) by lia.
  rewrite Z.rem_mod_nonneg by (simpl; lia).
  rewrite <- Nat2Z.inj_mod.
  destruct (Z.of_nat (n mod length userAgents) <? 0) eqn:Hneg.
  - apply Z.ltb_lt in Hneg. lia.
  - rewrite Nat2Z.id. reflexivity.
Qed.

Lemma getErrorMessage_nonempty (e : AxiosError) : getErrorMessage e <> "".
Proof.
  unfold getErrorMessage.
  destruct (isCloudflareError e); [discriminate|].
  assert (Hdefault : (if String.eqb (err_message e) "" then "Unknown error occurred"
                      else err_message e) <> "").
  { destruct (String.eqb (err_message e) "") eqn:Hm; [discriminate|].
    apply String.eqb_neq in Hm. exact Hm. }
  destruct (responseStatus e) as [[|s|s]|]; try exact Hdefault.
  repeat (destruct s as [s|s|]; try exact Hdefault); discriminate.
Qed.

(** ** The retry controller: properties *)

(** C1. The specification wants a 401 on the first attempt to end the
    fetch after one call. The catch block throws only when
    [attempt === retries]; a 401 on an earlier attempt falls out of the
    catch block and the loop goes on: against an upstream that always
    answers 401 the controller calls three times (without waiting) and the
    auth error surfaces only after the third call; when the second call
    succeeds the caller gets the payload and never sees the 401. *)
Theorem makeNewsRequest_401_is_retried :
  let always :=
    makeNewsRequest Scenario.apiKey (Scenario.alwaysFails Scenario.unauthorized)
      "/top-headlines" ∅ 3 [] in
  let once :=
    makeNewsRequest Scenario.apiKey (Scenario.failsOnce Scenario.unauthorized)
      "/top-headlines" ∅ 3 [] in
  responseStatus Scenario.unauthorized = Some 401
  /\ isRetryable Scenario.unauthorized = false
  /\ always.1 = Throw {| status := 401; message := "Invalid API key";
                         isCloudflareIssue := false |}
  /\ length (calls always.2) = 3%nat
  /\ delays always.2 = []
  /\ once.1 = Return Scenario.payload
  /\ length (calls once.2) = 2%nat.
Proof. vm_compute. repeat split; reflexivity. Qed.

(** C2. When every attempt meets a transient failure (status 429 or 403,
    with or without a challenge marker in the body), a fetch with [N]
    attempts makes exactly [N] calls, waits [2^k * 1000] ms between attempt
    [k] and attempt [k + 1] for [k] from 1 to [N - 1], and throws the
    classification of the failure of the last call: the trace ends with
    that call, and the thrown object carries the status of that failure
    (429 or 403), the flag decided by its body, and the message that goes
    with them. Whatever the upstream does, the number of calls never
    exceeds [N]. *)
Theorem makeNewsRequest_transient_exhausts
    (key : JsValue) (up : Trace -> string -> RequestConfig -> AxiosError + Response)
    (ep : string) (params : gmap string JsValue) (N : Z) (t : Trace) :
  let out := makeNewsRequest key up ep params N t in
  (length (calls out.2) <= length (calls t) + Z.to_nat N)%nat
  /\ (1 <= N ->
      (forall h cfg, exists e, up h ep cfg = inl e /\ transientStatus e) ->
      (exists h e response,
          up h ep (attemptConfig key params N) = inl e
          /\ out.2 = h ++ [EvGet ep (attemptConfig key params N);
                           EvConsoleError N (errorDetail e)]
          /\ transientStatus e
          /\ err_response e = Some response
          /\ (resp_status response = 429 \/ resp_status response = 403)
          /\ out.1 = Throw (classify e)
          /\ let flagged :=
                match resp_data response with
                | VString data => hasChallengeMarker data
                | _ => true
                end in
             out.1
             = Throw
                 {| status := resp_status response;
                    message :=
                      if flagged then
                        "News service is temporarily blocking requests. This usually resolves automatically. Please try again in a few minutes."
                      else if resp_status response =? 429 then
                        "Rate limit exceeded. Please try again later."
                      else if String.eqb (err_message e) "" then
                        "Unknown error occurred"
                      else err_message e;
                    isCloudflareIssue := flagged |})
      /\ timeline out.2 = timeline t ++ backoffSchedule key ep params (seqZ 1 N)
      /\ length (calls out.2) = (length (calls t) + Z.to_nat N)%nat
      /\ delays out.2 = delays t ++ ((fun k => 2 ^ k * 1000) <$> seqZ 1 (N - 1))).
Proof.
  intros out. subst out. split.
  - unfold makeNewsRequest. etransitivity; [apply attemptLoop_calls_bound|].
    rewrite length_seqZ. lia.
  - intros HN Hfail.
    assert (Hre : forall h cfg, exists e, up h ep cfg = inl e /\ isRetryable e = true).
    { intros h cfg. destruct (Hfail h cfg) as (e & He & Ht).
      exists e. auto using isRetryable_transientStatus. }
    assert (Hrun : exists e0,
               (makeNewsRequest key up ep params N t).1 = Throw (classify e0)
               /\ timeline (makeNewsRequest key up ep params N t).2
                  = timeline t ++ backoffSchedule key ep params (seqZ 1 N)).
    { unfold makeNewsRequest. rewrite (seqZ_snoc N HN).
      destruct (attemptLoop_transient key up ep params N (seqZ 1 (N - 1)) t
                  (seqZ_below N) Hre) as (h0 & e0 & _ & _ & Hres & Htl).
      exists e0. auto. }
    destruct Hrun as (e0 & Hres & Htl).
    destruct (makeNewsRequest_throw_inv key up ep params N t (classify e0) Hres)
      as (h & e & Hup & Htrace & Hc).
    destruct (Hfail h (attemptConfig key params N)) as (e' & He' & Ht).
    assert (e' = e) by congruence. subst e'.
    assert (Hresp : exists response,
               err_response e = Some response
               /\ (resp_status response = 429 \/ resp_status response = 403)).
    { unfold transientStatus, responseStatus in Ht.
      destruct (err_response e) as [response|];
        cbn [fmap option_fmap option_map] in Ht.
      - exists response. split; [reflexivity|].
        destruct Ht as [[= Hs] | [= Hs]]; auto.
      - destruct Ht as [Hs | Hs]; discriminate Hs. }
    destruct Hresp as (response & Hresp & Hstatus).
    split; [|split; [exact Htl|split]].
    + exists h, e, response.
      split; [exact Hup|]. split; [exact Htrace|]. split; [exact Ht|].
      split; [exact Hresp|]. split; [exact Hstatus|].
      rewrite Hres, Hc. split; [reflexivity|].
      cbv zeta. f_equal.
      unfold classify, statusOr500, getErrorMessage, isCloudflareError,
        responseStatus, hasChallengeMarker.
      rewrite Hresp. cbn [fmap option_fmap option_map].
      destruct Hstatus as [-> | ->]; cbn [Z.eqb Pos.eqb orb];
        destruct (resp_data response) as [| |b|n|data|items|fields];
        try reflexivity;
        destruct (includes data "cloudflare" || includes data "Just a moment"
                  || includes data "Enable JavaScript and cookies");
        reflexivity.
    + rewrite <- calls_timeline, Htl, calls_app, calls_timeline.
      rewrite calls_backoffSchedule, length_app, length_fmap, length_seqZ.
      reflexivity.
    + rewrite <- delays_timeline, Htl, delays_app, delays_timeline.
      rewrite (seqZ_snoc N HN), delays_backoffSchedule. reflexivity.
Qed.

(** C5. When the first attempt succeeds, the fetch makes exactly one call
    (nothing else is recorded: no wait, no log) and returns the payload of
    the response as it is; more generally a success at any attempt ends
    the loop, whatever attempts remain. *)
Theorem makeNewsRequest_success_short_circuits
    (key : JsValue) (up : Trace -> string -> RequestConfig -> AxiosError + Response)
    (ep : string) (params : gmap string JsValue) (retries : Z) (t : Trace)
    (response : Response) :
  (1 <= retries ->
   up t ep (attemptConfig key params 1) = inr response ->
   makeNewsRequest key up ep params retries t
   = (Return (resp_data response), t ++ [EvGet ep (attemptConfig key params 1)])
   /\ calls (makeNewsRequest key up ep params retries t).2
      = calls t ++ [(ep, attemptConfig key params 1)])
  /\ (forall attempt rest,
        up t ep (attemptConfig key params attempt) = inr response ->
        attemptLoop key up ep params retries (attempt :: rest) t
        = (Return (resp_data response),
           t ++ [EvGet ep (attemptConfig key params attempt)])).
Proof.
  split.
  - intros Hn Hup. unfold makeNewsRequest.
    rewrite seqZ_cons by lia.
    rewrite (attemptLoop_success key up ep params retries 1 _ t response Hup).
    split; [reflexivity|]. simpl. rewrite calls_app. reflexivity.
  - intros attempt rest Hup. apply attemptLoop_success. exact Hup.
Qed.

(** C9. Whatever [makeNewsRequest] throws is the classification of the
    failure of the last attempt: its status is the HTTP status of the
    failure, 500 when the failure carries none; its message is the
    (non-empty) text of [getErrorMessage]; its flag is [isCloudflareError]
    of the failure. And when every attempt fails the fetch does throw:
    no failure is lost. *)
Theorem makeNewsRequest_throws_classified
    (key : JsValue) (up : Trace -> string -> RequestConfig -> AxiosError + Response)
    (ep : string) (params : gmap string JsValue) (retries : Z) (t : Trace) :
  let out := makeNewsRequest key up ep params retries t in
  (forall c, out.1 = Throw c ->
     exists h e,
       up h ep (attemptConfig key params retries) = inl e
       /\ out.2 = h ++ [EvGet ep (attemptConfig key params retries);
                        EvConsoleError retries (errorDetail e)]
       /\ status c = match responseStatus e with
                     | Some s => if s =? 0 then 500 else s
                     | None => 500
                     end
       /\ (err_response e = None -> status c = 500)
       /\ status c <> 0
       /\ message c = getErrorMessage e
       /\ message c <> ""
       /\ isCloudflareIssue c = isCloudflareError e)
  /\ (1 <= retries ->
      (forall h cfg, exists e, up h ep cfg = inl e) ->
      exists c, out.1 = Throw c).
Proof.
  intros out. subst out. unfold makeNewsRequest. split.
  - intros c Hc.
    destruct (makeNewsRequest_throw_inv key up ep params retries t c Hc)
      as (h & e & Hup & Htrace & ->).
    exists h, e. simpl.
    repeat split; try reflexivity; try assumption.
    + intros Hnone. unfold statusOr500, responseStatus. rewrite Hnone. reflexivity.
    + unfold statusOr500. destruct (responseStatus e) as [s|]; [|discriminate].
      destruct (s =? 0) eqn:Hs; [discriminate|]. apply Z.eqb_neq. exact Hs.
    + apply getErrorMessage_nonempty.
  - intros Hn Hfail. rewrite (seqZ_snoc retries Hn).
    apply attemptLoop_all_fail. exact Hfail.
Qed.

(** ** Classification: properties *)

(** C3, as the code has it. For a failure with HTTP status 403 the thrown
    object has [isCloudflareIssue = true] when the response body is not a
    string; when the body is a string the flag is decided by the body
    alone: it is true exactly when the body contains one of the three
    challenge markers. *)
Theorem classify_403_by_body (e : AxiosError) (response : Response) :
  err_response e = Some response ->
  resp_status response = 403 ->
  status (classify e) = 403
  /\ isCloudflareIssue (classify e)
     = match resp_data response with
       | VString data => hasChallengeMarker data
       | _ => true
       end.
Proof.
  intros Hresp Hstatus.
  unfold classify, statusOr500, responseStatus, isCloudflareError; simpl.
  rewrite Hresp. simpl. rewrite Hstatus. split; [reflexivity|].
  destruct (resp_data response); reflexivity.
Qed.

(** C3 as stated fails: a 403 whose body is the string "Forbidden" is
    retried like any 403, and the error thrown after the last attempt has
    [isCloudflareIssue = false]. *)
Lemma forbidden_string_body_not_flagged :
  responseStatus Scenario.forbiddenPlain = Some 403
  /\ (makeNewsRequest Scenario.apiKey (Scenario.alwaysFails Scenario.forbiddenPlain)
        "/top-headlines" ∅ 3 []).1
     = Throw {| status := 403;
                message := "Request failed with status code 403";
                isCloudflareIssue := false |}.
Proof. vm_compute. split; reflexivity. Qed.

(** C4, as the code has it. A call that times out is rejected with an
    error that carries no response; the catch block does not count it
    among the failures it waits for, so a fetch whose attempts all time
    out records no backoff wait, and what it throws has status 500 and
    [isCloudflareIssue = false]. *)
Theorem timeout_not_backed_off
    (key : JsValue) (up : Trace -> string -> RequestConfig -> AxiosError + Response)
    (ep : string) (params : gmap string JsValue) (retries : Z) (t : Trace) :
  1 <= retries ->
  (forall h cfg, exists e, up h ep cfg = inl e /\ isTimeout e) ->
  let out := makeNewsRequest key up ep params retries t in
  delays out.2 = delays t
  /\ exists e,
       isTimeout e
       /\ isRetryable e = false
       /\ out.1 = Throw (classify e)
       /\ status (classify e) = 500
       /\ isCloudflareIssue (classify e) = false.
Proof.
  intros Hn Htimeout out. subst out. unfold makeNewsRequest. split.
  - apply attemptLoop_no_delay. intros h cfg error Hup.
    destruct (Htimeout h cfg) as (e & He & Ht).
    apply isTimeout_not_retryable. congruence.
  - destruct (attemptLoop key up ep params retries (seqZ 1 retries) t)
      as [r t'] eqn:Hrun.
    assert (Hthrow : exists c, r = Throw c).
    { pose proof (attemptLoop_all_fail key up ep params retries
                    (seqZ 1 (retries - 1)) t) as Hall.
      rewrite <- (seqZ_snoc retries Hn), Hrun in Hall. apply Hall.
      intros h cfg. destruct (Htimeout h cfg) as (e & He & _). eauto. }
    destruct Hthrow as [c ->].
    destruct (attemptLoop_throw_inv _ _ _ _ _ _ _ _ _ Hrun)
      as (h & e & Hup & -> & _).
    assert (Ht : isTimeout e).
    { destruct (Htimeout h (attemptConfig key params retries)) as (e' & He' & Ht').
      congruence. }
    exists e. destruct (isTimeout_classify e Ht) as [Hs Hc].
    auto using isTimeout_not_retryable.
Qed.

(** C4 as stated fails: with three attempts that all time out, the
    timeout is not retryable for the catch block and no wait is recorded
    although attempts remain. *)
Lemma timeout_triggers_no_backoff :
  let out :=
    makeNewsRequest Scenario.apiKey (Scenario.alwaysFails Scenario.timedOut)
      "/top-headlines" ∅ 3 [] in
  isTimeout Scenario.timedOut
  /\ isRetryable Scenario.timedOut = false
  /\ delays out.2 = []
  /\ out.1 = Throw {| status := 500;
                      message := "timeout of 30000ms exceeded";
                      isCloudflareIssue := false |}.
Proof.
  vm_compute. split; [split; [reflexivity | left; reflexivity]|].
  repeat split; reflexivity.
Qed.


(** ** The handlers: properties *)

Lemma parseInt_nonNumeric (c : ascii) (rest : string) :
  nonNumericStart c = true -> parseInt (VString (String c rest)) = NaN.
Proof.
  destruct c as [[] [] [] [] [] [] [] []];
    intros H; vm_compute in H; try discriminate H; reflexivity.
Qed.

Section HandlerFacts.

Variable NEWS_API_KEY : JsValue.
Variable upstream : Trace -> string -> RequestConfig -> AxiosError + Response.
Variable now : string.

Let fetch := makeNewsRequest NEWS_API_KEY upstream.
Let config := attemptConfig NEWS_API_KEY.

(** The loop only ever adds to the trace. *)
Lemma attemptLoop_extends endpoint params retries attempts t :
  exists rest,
    (attemptLoop NEWS_API_KEY upstream endpoint params retries attempts t).2
    = t ++ rest.
Proof.
  revert t. induction attempts as [|attempt attempts IH]; intros t; simpl.
  - exists []. rewrite app_nil_r. reflexivity.
  - destruct (upstream t endpoint _) as [error|response]; simpl.
    + destruct (isRetryable error && (attempt <? retries)).
      * edestruct IH as [rest Hrest]. rewrite Hrest.
        rewrite <- !app_assoc. eauto.
      * destruct (attempt =? retries); simpl.
        -- rewrite <- !app_assoc. eauto.
        -- edestruct IH as [rest Hrest]. rewrite Hrest.
           rewrite <- !app_assoc. eauto.
    + eauto.
Qed.

(** The first thing a non-empty loop does is the call of its first
    attempt. *)
Lemma attemptLoop_first_call endpoint params retries attempt attempts t :
  exists rest,
    (attemptLoop NEWS_API_KEY upstream endpoint params retries
       (attempt :: attempts) t).2
    = t ++ EvGet endpoint (config params attempt) :: rest.
Proof.
  simpl. destruct (upstream t endpoint _) as [error|response]; simpl.
  - destruct (isRetryable error && (attempt <? retries)).
    + edestruct (attemptLoop_extends endpoint params retries attempts)
        as [rest Hrest].
      rewrite Hrest, <- !app_assoc. simpl. eexists; reflexivity.
    + destruct (attempt =? retries); simpl.
      * rewrite <- !app_assoc. simpl. eexists; reflexivity.
      * edestruct (attemptLoop_extends endpoint params retries attempts)
          as [rest Hrest].
        rewrite Hrest, <- !app_assoc. simpl. eexists; reflexivity.
  - eexists; reflexivity.
Qed.

(** A fetch with at least one attempt starts with the call of attempt 1. *)
Lemma makeNewsRequest_first_call endpoint params retries t :
  1 <= retries ->
  exists rest,
    (fetch endpoint params retries t).2
    = t ++ EvGet endpoint (config params 1) :: rest.
Proof.
  intros Hn. unfold fetch, makeNewsRequest. rewrite seqZ_cons by lia.
  apply attemptLoop_first_call.
Qed.

(** What the common tail of the handlers sends. *)
Lemma respond_cases label endpoint params t :
  (exists data,
      (fetch endpoint params 3 t).1 = Return data
      /\ (respond NEWS_API_KEY upstream now label endpoint params t).1
         = {| res_status := 200; res_body := Success data now |})
  \/ (exists c,
         (fetch endpoint params 3 t).1 = Throw c
         /\ (respond NEWS_API_KEY upstream now label endpoint params t).1
            = sendFailure label c).
Proof.
  unfold respond, fetch.
  destruct (makeNewsRequest NEWS_API_KEY upstream endpoint params 3 t)
    as [[data|c] t']; simpl; eauto.
Qed.

Lemma respond_trace label endpoint params t :
  (respond NEWS_API_KEY upstream now label endpoint params t).2
  = (fetch endpoint params 3 t).2.
Proof.
  unfold respond, fetch.
  destruct (makeNewsRequest NEWS_API_KEY upstream endpoint params 3 t)
    as [[data|c] t']; reflexivity.
Qed.

(** Every handler either rejects the request (only the search, on a
    missing or empty [q]) or runs one fetch whose parameters carry the
    parsed [page] and [pageSize]. *)
Lemma handle_cases route req t :
  (route = SearchNews
   /\ (req_query req !! "q" = None \/ req_query req !! "q" = Some "")
   /\ handle NEWS_API_KEY upstream now route req t
      = ({| res_status := 400; res_body := Rejected "Search query is required" |}, t))
  \/ (exists label endpoint params,
         handle NEWS_API_KEY upstream now route req t
         = respond NEWS_API_KEY upstream now label endpoint params t
         /\ params !! "page" = Some (pageOf req)
         /\ params !! "pageSize" = Some (pageSizeOf req)
         /\ (route = SearchNews ->
             req_query req !! "q" <> None /\ req_query req !! "q" <> Some "")).
Proof.
  destruct route; simpl;
    try (right; do 3 eexists;
         split; [reflexivity|];
         split; [reflexivity|];
         split; [reflexivity|]; discriminate).
  unfold searchNews.
  destruct (req_query req !! "q") as [q|] eqn:Hq; simpl.
  - destruct q as [|c q]; simpl.
    + left. auto.
    + right. do 3 eexists.
      split; [reflexivity|].
      split; [reflexivity|].
      split; [reflexivity|]. intros _. split; discriminate.
  - left. auto.
Qed.

End HandlerFacts.

(** C6. A search request whose [q] is absent or the empty string is
    answered with status 400 and the trace is left as it was: no upstream
    call (and nothing else) happens. *)
Theorem searchNews_rejects_empty_query
    (key : JsValue) (up : Trace -> string -> RequestConfig -> AxiosError + Response)
    (now : string) (req : Req) (t : Trace) :
  req_query req !! "q" = None \/ req_query req !! "q" = Some "" ->
  searchNews key up now req t
  = ({| res_status := 400; res_body := Rejected "Search query is required" |}, t)
  /\ calls (searchNews key up now req t).2 = calls t.
Proof.
  intros Hq. unfold searchNews.
  destruct Hq as [-> | ->]; simpl; split; reflexivity.
Qed.

(** C7. Every failure envelope a handler sends comes from the failure of
    the third attempt of its fetch. When that failure is a 403 whose body
    is a string containing "cloudflare", the envelope has
    [isCloudflareIssue = true] and [retryAfter >= 300]; when it is a 500
    whose body carries no challenge marker, [retryAfter <= 60]. *)
Theorem error_envelope_retryAfter
    (key : JsValue) (up : Trace -> string -> RequestConfig -> AxiosError + Response)
    (now : string) (route : Route) (req : Req) (t : Trace)
    (label msg : string) (cf : bool) (ra : Z) :
  res_body (handle key up now route req t).1 = Failure label msg cf ra ->
  exists h ep cfg e,
    up h ep cfg = inl e
    /\ (handle key up now route req t).2
       = h ++ [EvGet ep cfg; EvConsoleError 3 (errorDetail e)]
    /\ res_status (handle key up now route req t).1 = statusOr500 e
    /\ msg = getErrorMessage e
    /\ cf = isCloudflareError e
    /\ (forall data,
          err_response e = Some {| resp_status := 403; resp_data := VString data |} ->
          includes data "cloudflare" = true ->
          cf = true /\ 300 <= ra)
    /\ (forall response,
          err_response e = Some response ->
          resp_status response = 500 ->
          noChallengeMarker (resp_data response) ->
          cf = false /\ ra <= 60).
Proof.
  intros Hbody.
  destruct (handle_cases key up now route req t)
    as [(_ & _ & Hrej) | (lbl & ep & params & Hrun & _)].
  { rewrite Hrej in Hbody. discriminate Hbody. }
  rewrite Hrun in Hbody |- *. rewrite respond_trace.
  destruct (respond_cases key up now lbl ep params t)
    as [(data & _ & Hres) | (c & Hthrow & Hres)];
    rewrite Hres in Hbody |- *; [discriminate Hbody|].
  destruct (makeNewsRequest_throw_inv key up ep params 3 t c Hthrow)
    as (h & e & Hup & Htrace & ->).
  exists h, ep, (attemptConfig key params 3), e.
  injection Hbody as <- <- <- <-. simpl.
  assert (Hnz : (statusOr500 e =? 0) = false).
  { unfold statusOr500. destruct (responseStatus e) as [s|]; [|reflexivity].
    destruct (s =? 0) eqn:Hs; [reflexivity | exact Hs]. }
  rewrite Hnz, orb_false_r.
  split; [exact Hup|]. split; [exact Htrace|].
  split; [reflexivity|]. split; [reflexivity|]. split; [reflexivity|].
  split.
  - intros data Hresp Hmark.
    assert (Hcf : isCloudflareError e = true).
    { unfold isCloudflareError. rewrite Hresp. simpl. rewrite Hmark. reflexivity. }
    rewrite Hcf. split; [reflexivity | lia].
  - intros response Hresp Hstatus Hplain.
    assert (Hcf : isCloudflareError e = false).
    { unfold isCloudflareError. rewrite Hresp, Hstatus.
      destruct (resp_data response); try reflexivity. exact Hplain. }
    rewrite Hcf. split; [reflexivity | lia].
Qed.

(** C10. No handler checks [page] or [pageSize]. A handler rejects a
    request before contacting the upstream only when it is the search and
    [q] is absent or empty; in every other case its fetch starts with an
    upstream call whose parameters carry [parseInt(page)] and
    [parseInt(pageSize)] as they come out, which is [NaN] for a value that
    does not start like a number: one whose first character is an ASCII
    character other than white space, a sign or a digit. *)
Theorem page_and_pageSize_never_validated
    (key : JsValue) (up : Trace -> string -> RequestConfig -> AxiosError + Response)
    (now : string) (route : Route) (req : Req) (t : Trace) :
  let out := handle key up now route req t in
  let q := req_query req !! "q" in
  ((exists error, res_body out.1 = Rejected error)
   <-> route = SearchNews /\ (q = None \/ q = Some ""))
  /\ ((route = SearchNews -> q <> None /\ q <> Some "") ->
      exists ep cfg rest,
        out.2 = t ++ EvGet ep cfg :: rest
        /\ cfg_params cfg !! "page"
           = Some (VNumber (parseInt (withDefault 1 (req_query req !! "page"))))
        /\ cfg_params cfg !! "pageSize"
           = Some (VNumber (parseInt (withDefault 10 (req_query req !! "pageSize"))))
        /\ (forall c s, req_query req !! "page" = Some (String c s) ->
                        nonNumericStart c = true ->
                        cfg_params cfg !! "page" = Some (VNumber NaN))
        /\ (forall c s, req_query req !! "pageSize" = Some (String c s) ->
                        nonNumericStart c = true ->
                        cfg_params cfg !! "pageSize" = Some (VNumber NaN))).
Proof.
  intros out q. subst out q.
  destruct (handle_cases key up now route req t)
    as [(Hroute & Hq & Hrej) | (lbl & ep & params & Hrun & Hpage & Hsize & Hsearch)].
  - rewrite Hrej. simpl. split.
    + split; [auto | eauto].
    + intros Hok. destruct (Hok Hroute) as [Hsome Hnonempty].
      destruct Hq as [Hq | Hq]; contradiction.
  - rewrite Hrun. split.
    + split.
      * intros [error Hbody].
        destruct (respond_cases key up now lbl ep params t)
          as [(data & _ & Hres) | (c & _ & Hres)];
          rewrite Hres in Hbody; discriminate Hbody.
      * intros [Hroute Hq]. destruct (Hsearch Hroute) as [Hsome Hnonempty].
        destruct Hq as [Hq | Hq]; contradiction.
    + intros _. rewrite respond_trace.
      destruct (makeNewsRequest_first_call key up ep params 3 t) as [rest Hrest];
        [lia|].
      exists ep, (attemptConfig key params 1), rest.
      assert (Hp : cfg_params (attemptConfig key params 1) !! "page"
                   = Some (pageOf req)).
      { simpl. rewrite lookup_insert_ne by discriminate. exact Hpage. }
      assert (Hs : cfg_params (attemptConfig key params 1) !! "pageSize"
                   = Some (pageSizeOf req)).
      { simpl. rewrite lookup_insert_ne by discriminate. exact Hsize. }
      split; [exact Hrest|]. split; [exact Hp|]. split; [exact Hs|]. split.
      * intros c s Hc Hnon. rewrite Hp. unfold pageOf. rewrite Hc. simpl.
        rewrite (parseInt_nonNumeric c s Hnon). reflexivity.
      * intros c s Hc Hnon. rewrite Hs. unfold pageSizeOf. rewrite Hc. simpl.
        rewrite (parseInt_nonNumeric c s Hnon). reflexivity.
Qed.

(** ** The scenarios of the specification *)

(** Trending news from a healthy upstream: one call, the payload wrapped. *)
Example trending_healthy :
  getTrendingNews Scenario.apiKey Scenario.healthy "2025-01-01T00:00:00.000Z"
    (Scenario.pagedReq "1") []
  = ({| res_status := 200;
        res_body := Success Scenario.payload "2025-01-01T00:00:00.000Z" |},
     [EvGet "/top-headlines"
        {| cfg_params :=
             <["apiKey" := Scenario.apiKey]>
               (<["country" := VString "us"]>
                  (<["category" := VString "general"]>
                     (<["page" := VNumber (Num 1)]>
                        (<["pageSize" := VNumber (Num 10)]> ∅))));
           cfg_headers := ∅ |}]).
Proof. vm_compute. reflexivity. Qed.

(** A search for "climate" that is rate limited three times: three calls,
    6 s of waiting, then the failure envelope. *)
Example search_climate_rate_limited :
  let out :=
    searchNews Scenario.apiKey (Scenario.alwaysFails Scenario.rateLimited)
      "2025-01-01T00:00:00.000Z" (Scenario.searchReq "climate") [] in
  out.1 = {| res_status := 429;
             res_body := Failure "Failed to search news"
                           "Rate limit exceeded. Please try again later."
                           false 60 |}
  /\ length (calls out.2) = 3%nat
  /\ delays out.2 = [2000; 4000].
Proof. vm_compute. repeat split; reflexivity. Qed.

(** A plain 500 on every attempt: no wait between the three calls, and a
    short [retryAfter]. *)
Example trending_server_error :
  let out :=
    getTrendingNews Scenario.apiKey (Scenario.alwaysFails Scenario.serverError)
      "2025-01-01T00:00:00.000Z" Scenario.emptyReq [] in
  out.1 = {| res_status := 500;
             res_body := Failure "Failed to fetch trending news"
                           "News service is temporarily unavailable"
                           false 60 |}
  /\ length (calls out.2) = 3%nat
  /\ delays out.2 = [].
Proof. vm_compute. repeat split; reflexivity. Qed.

(** What [parseInt] makes of some query values: white space of several
    bytes is skipped (a no-break space, a byte order mark), a number
    beyond 2^53 is rounded to the nearest double, a very long one is an
    infinity, and letters give [NaN]. *)
Example parseInt_samples :
  parseInt (VString (String "194" (String "160" "42"))) = Num 42
  /\ parseInt (VString (String "239" (String "187" (String "191" " 7")))) = Num 7
  /\ parseInt (VString "9007199254740993") = Num 9007199254740992
  /\ parseInt (VString "  -12px") = Num (-12)
  /\ parseInt (VString "0x1F") = Num 31
  /\ parseInt (VString "abc") = NaN
  /\ parseInt (VString "") = NaN
  /\ toDouble (2 ^ 1024) = Infinity false.
Proof. vm_compute. repeat split; reflexivity. Qed.

(** ** The properties at concrete scenarios *)

(** A search for "climate" that is rate limited three times: three calls,
    waits of 2 s and 4 s, then the classified 429. *)
Lemma makeNewsRequest_transient_exhausts_witness :
  let out :=
    makeNewsRequest Scenario.apiKey (Scenario.alwaysFails Scenario.rateLimited)
      "/everything" ∅ 3 [] in
  out.1 = Throw {| status := 429;
                   message := "Rate limit exceeded. Please try again later.";
                   isCloudflareIssue := false |}
  /\ timeline out.2
     = timeline [] ++ backoffSchedule Scenario.apiKey "/everything" ∅ (seqZ 1 3)
  /\ length (calls out.2) = (length (calls []) + Z.to_nat 3)%nat
  /\ delays out.2 = delays [] ++ ((fun k => 2 ^ k * 1000) <$> seqZ 1 (3 - 1)).
Proof.
  intros out.
  destruct (makeNewsRequest_transient_exhausts Scenario.apiKey
              (Scenario.alwaysFails Scenario.rateLimited) "/everything" ∅ 3 [])
    as [_ Hexhaust].
  destruct Hexhaust
    as ((h & e & response & Hup & _ & _ & Hresp & _ & _ & Hthrown)
        & Htl & Hcalls & Hdelays).
  - lia.
  - intros h cfg. exists Scenario.rateLimited.
    split; [reflexivity | left; reflexivity].
  - injection Hup as <-. injection Hresp as <-.
    split; [exact Hthrown|]. split; [exact Htl|]. split; [exact Hcalls | exact Hdelays].
Defined.

Lemma classify_403_by_body_witness :
  status (classify Scenario.cloudflareBlock) = 403
  /\ isCloudflareIssue (classify Scenario.cloudflareBlock)
     = hasChallengeMarker "<title>Attention Required! | cloudflare</title>".
Proof.
  apply (classify_403_by_body Scenario.cloudflareBlock
           {| resp_status := 403;
              resp_data := VString "<title>Attention Required! | cloudflare</title>" |}).
  - reflexivity.
  - reflexivity.
Defined.

Lemma timeout_not_backed_off_witness :
  let out :=
    makeNewsRequest Scenario.apiKey (Scenario.alwaysFails Scenario.timedOut)
      "/top-headlines" ∅ 3 [] in
  delays out.2 = delays []
  /\ exists e,
       isTimeout e
       /\ isRetryable e = false
       /\ out.1 = Throw (classify e)
       /\ status (classify e) = 500
       /\ isCloudflareIssue (classify e) = false.
Proof.
  apply (timeout_not_backed_off Scenario.apiKey
           (Scenario.alwaysFails Scenario.timedOut) "/top-headlines" ∅ 3 []).
  - lia.
  - intros h cfg. exists Scenario.timedOut.
    split; [reflexivity | split; [reflexivity | left; reflexivity]].
Defined.

Lemma makeNewsRequest_success_short_circuits_witness :
  makeNewsRequest Scenario.apiKey Scenario.healthy "/top-headlines" ∅ 3 []
  = (Return Scenario.payload,
     [] ++ [EvGet "/top-headlines" (attemptConfig Scenario.apiKey ∅ 1)])
  /\ calls (makeNewsRequest Scenario.apiKey Scenario.healthy "/top-headlines" ∅ 3 []).2
     = calls [] ++ [("/top-headlines", attemptConfig Scenario.apiKey ∅ 1)].
Proof.
  apply (makeNewsRequest_success_short_circuits Scenario.apiKey Scenario.healthy
           "/top-headlines" ∅ 3 []
           {| resp_status := 200; resp_data := Scenario.payload |}).
  - lia.
  - reflexivity.
Defined.

Lemma searchNews_rejects_empty_query_witness :
  searchNews Scenario.apiKey Scenario.healthy "2025-01-01T00:00:00.000Z"
    (Scenario.searchReq "") []
  = ({| res_status := 400; res_body := Rejected "Search query is required" |}, [])
  /\ calls (searchNews Scenario.apiKey Scenario.healthy "2025-01-01T00:00:00.000Z"
              (Scenario.searchReq "") []).2
     = calls [].
Proof.
  apply (searchNews_rejects_empty_query Scenario.apiKey Scenario.healthy
           "2025-01-01T00:00:00.000Z" (Scenario.searchReq "") []).
  right. reflexivity.
Defined.

Lemma error_envelope_retryAfter_witness :
  let up := Scenario.alwaysFails Scenario.cloudflareBlock in
  let out :=
    handle Scenario.apiKey up "2025-01-01T00:00:00.000Z" TrendingNews
      Scenario.emptyReq [] in
  res_body out.1
  = Failure "Failed to fetch trending news"
      (getErrorMessage Scenario.cloudflareBlock) true 300
  /\ exists h ep cfg e,
       up h ep cfg = inl e
       /\ res_status out.1 = statusOr500 e
       /\ true = isCloudflareError e.
Proof.
  split; [reflexivity|].
  destruct (error_envelope_retryAfter Scenario.apiKey
              (Scenario.alwaysFails Scenario.cloudflareBlock)
              "2025-01-01T00:00:00.000Z" TrendingNews Scenario.emptyReq []
              "Failed to fetch trending news"
              (getErrorMessage Scenario.cloudflareBlock) true 300 eq_refl)
    as (h & ep & cfg & e & Hup & _ & Hstatus & _ & Hcf & _).
  exists h, ep, cfg, e. split; [exact Hup|]. split; [exact Hstatus | exact Hcf].
Defined.

Lemma makeNewsRequest_throws_classified_witness :
  exists c,
    (makeNewsRequest Scenario.apiKey (Scenario.alwaysFails Scenario.timedOut)
       "/top-headlines" ∅ 3 []).1 = Throw c.
Proof.
  apply (makeNewsRequest_throws_classified Scenario.apiKey
           (Scenario.alwaysFails Scenario.timedOut) "/top-headlines" ∅ 3 []).
  - lia.
  - intros h cfg. exists Scenario.timedOut. reflexivity.
Defined.

Lemma page_and_pageSize_never_validated_witness :
  let out :=
    handle Scenario.apiKey Scenario.healthy "2025-01-01T00:00:00.000Z"
      TrendingNews (Scenario.pagedReq "abc") [] in
  exists ep cfg rest,
    out.2 = [] ++ EvGet ep cfg :: rest
    /\ cfg_params cfg !! "page" = Some (VNumber NaN).
Proof.
  destruct (page_and_pageSize_never_validated Scenario.apiKey Scenario.healthy
              "2025-01-01T00:00:00.000Z" TrendingNews (Scenario.pagedReq "abc") [])
    as [_ Hfetch].
  destruct Hfetch as (ep & cfg & rest & Htrace & _ & _ & Hpage & _).
  - intros Hroute. discriminate Hroute.
  - exists ep, cfg, rest. split; [exact Htrace|].
    apply (Hpage "a"%char "bc"); reflexivity.
Defined.

(** ** More on the retry loop *)

Lemma totalDelay_app (t1 t2 : Trace) :
  totalDelay (t1 ++ t2) = totalDelay t1 + totalDelay t2.
Proof.
  unfold totalDelay. rewrite delays_app.
  induction (delays t1) as [|d ds IH]; simpl; lia.
Qed.

Lemma waitBudget_nonneg (retries : Z) (attempts : list Z) :
  0 <= waitBudget retries attempts.
Proof.
  induction attempts as [|k rest IH]; cbn [waitBudget]; [lia|].
  pose proof (Z.pow_nonneg 2 k). destruct (k <? retries); lia.
Qed.

(** The budget of the attempts [a .. N] is [(2^N - 2^a) * 1000]. *)
Lemma waitBudget_seqZ (N : Z) (n : nat) (a : Z) :
  0 <= a -> a + Z.of_nat n = N ->
  waitBudget N (seqZ a (Z.of_nat n + 1)) = (2 ^ N - 2 ^ a) * 1000.
Proof.
  revert a. induction n as [|n IH]; intros a Ha HN.
  - replace a with N by lia. change (Z.of_nat 0 + 1) with 1.
    rewrite seqZ_cons, seqZ_nil by lia. cbn [waitBudget].
    rewrite Z.ltb_irrefl. lia.
  - rewrite seqZ_cons by lia.
    replace (Z.pred (Z.of_nat (S n) + 1)) with (Z.of_nat n + 1) by lia.
    cbn [waitBudget]. rewrite (IH (Z.succ a)) by lia.
    assert (Hlt : (a <? N) = true) by (apply Z.ltb_lt; lia).
    rewrite Hlt, Z.pow_succ_r by lia. lia.
Qed.

Section LoopFacts.

Variable NEWS_API_KEY : JsValue.
Variable upstream : Trace -> string -> RequestConfig -> AxiosError + Response.
Variables (endpoint : string) (params : gmap string JsValue) (retries : Z).

Let loop := attemptLoop NEWS_API_KEY upstream endpoint params retries.
Let call (k : Z) := (endpoint, attemptConfig NEWS_API_KEY params k).

(** The calls of a run are those of a prefix of its attempts, in order. *)
Lemma attemptLoop_calls_prefix attempts t :
  exists m : nat,
    (m <= length attempts)%nat
    /\ (attempts <> [] -> (1 <= m)%nat)
    /\ calls (loop attempts t).2 = calls t ++ (call <$> take m attempts).
Proof.
  unfold loop, call. revert t.
  induction attempts as [|attempt rest IH]; intros t.
  - exists 0%nat. simpl. rewrite app_nil_r.
    split; [lia|]. split; [congruence | reflexivity].
  - simpl. destruct (upstream t endpoint _) as [error|response].
    + destruct (isRetryable error && (attempt <? retries)).
      * edestruct IH as (m & Hm & _ & Hcalls). exists (S m).
        rewrite Hcalls. autorewrite with trace. simpl.
        split; [lia|]. split; [lia|reflexivity].
      * destruct (attempt =? retries).
        -- exists 1%nat. simpl. autorewrite with trace. simpl.
           rewrite ?take_0. split; [lia|]. split; [lia|reflexivity].
        -- edestruct IH as (m & Hm & _ & Hcalls). exists (S m).
           rewrite Hcalls. autorewrite with trace. simpl.
           split; [lia|]. split; [lia|reflexivity].
    + exists 1%nat. simpl. autorewrite with trace. simpl.
      rewrite ?take_0. split; [lia|]. split; [lia|reflexivity].
Qed.

(** The waiting a run can add: one wait per attempt below [retries]. *)
Lemma attemptLoop_delay_bound attempts t :
  totalDelay t <= totalDelay (loop attempts t).2
  /\ totalDelay (loop attempts t).2 <= totalDelay t + waitBudget retries attempts.
Proof.
  unfold loop. revert t.
  induction attempts as [|attempt rest IH]; intros t;
    cbn [attemptLoop waitBudget]; [simpl; lia|].
  pose proof (waitBudget_nonneg retries rest) as Hrest.
  assert (Hpos : 0 <= 2 ^ attempt * 1000).
  { pose proof (Z.pow_nonneg 2 attempt). lia. }
  destruct (upstream t endpoint _) as [error|response].
  - destruct (attempt <? retries) eqn:Hlt.
    + destruct (isRetryable error); cbn [andb].
      * edestruct IH as [Hlo Hhi].
        split; [etransitivity; [|exact Hlo] | etransitivity; [exact Hhi|]];
          rewrite !totalDelay_app; unfold totalDelay; simpl; lia.
      * destruct (attempt =? retries); cbn [snd].
        -- rewrite !totalDelay_app. unfold totalDelay. simpl. lia.
        -- edestruct IH as [Hlo Hhi].
           split; [etransitivity; [|exact Hlo] | etransitivity; [exact Hhi|]];
             rewrite !totalDelay_app; unfold totalDelay; simpl; lia.
    + rewrite andb_false_r. destruct (attempt =? retries); cbn [snd].
      * rewrite !totalDelay_app. unfold totalDelay. simpl. lia.
      * edestruct IH as [Hlo Hhi].
        split; [etransitivity; [|exact Hlo] | etransitivity; [exact Hhi|]];
          rewrite !totalDelay_app; unfold totalDelay; simpl; lia.
  - cbn [snd]. rewrite !totalDelay_app. unfold totalDelay. simpl.
    destruct (attempt <? retries); lia.
Qed.

(** A run whose last attempt is numbered [retries] returns only what a
    successful call answered. *)
Lemma attemptLoop_return_inv l t data t' :
  loop (l ++ [retries]) t = (Return data, t') ->
  exists h k response,
    k ∈ l ++ [retries]
    /\ upstream h endpoint (attemptConfig NEWS_API_KEY params k) = inr response
    /\ data = resp_data response
    /\ t' = h ++ [EvGet endpoint (attemptConfig NEWS_API_KEY params k)].
Proof.
  unfold loop. revert t.
  induction l as [|attempt l IH]; intros t; simpl.
  - destruct (upstream t endpoint _) as [error|response] eqn:Hup.
    + rewrite Z.ltb_irrefl, andb_false_r, Z.eqb_refl. discriminate.
    + intros [= <- <-]. exists t, retries, response.
      split; [left|]; auto.
  - destruct (upstream t endpoint _) as [error|response] eqn:Hup.
    + intros Hrun.
      assert (Hrec : exists t0,
                 attemptLoop NEWS_API_KEY upstream endpoint params retries
                   (l ++ [retries]) t0 = (Return data, t')).
      { destruct (isRetryable error && (attempt <? retries)); [eauto|].
        destruct (attempt =? retries); [discriminate Hrun | eauto]. }
      destruct Hrec as [t0 Hrec].
      destruct (IH t0 Hrec) as (h & k & response & Hin & Hok & Hdata & Htrace).
      exists h, k, response. split; [right; exact Hin | auto].
    + intros [= <- <-]. exists t, attempt, response.
      split; [left|]; auto.
Qed.

End LoopFacts.

Lemma hasNext_seqZ (N : Z) (n : nat) (a : Z) :
  n = 0%nat \/ N <= a + Z.of_nat n - 1 ->
  hasNext N (seqZ a (Z.of_nat n)).
Proof.
  revert a. induction n as [|n IH]; intros a Hlast.
  - rewrite seqZ_nil by reflexivity. exact I.
  - rewrite seqZ_cons by lia.
    replace (Z.pred (Z.of_nat (S n))) with (Z.of_nat n) by lia.
    cbn [hasNext]. split.
    + intros Ha. destruct n as [|n]; [lia|].
      rewrite seqZ_cons by lia. discriminate.
    + apply IH. destruct n as [|n]; [left; reflexivity | right; lia].
Qed.

(** When every attempt below [retries] has a successor, no wait of a run
    is wasted: each one is followed by the call of the next attempt. *)
Lemma attemptLoop_waits_lead_to_calls
    (key : JsValue) (up : Trace -> string -> RequestConfig -> AxiosError + Response)
    (ep : string) (params : gmap string JsValue) (retries : Z)
    (attempts : list Z) :
  hasNext retries attempts ->
  forall t, exists new,
    (attemptLoop key up ep params retries attempts t).2 = t ++ new
    /\ waitsLeadToCalls new = true
    /\ (attempts <> [] -> exists cfg rest, new = EvGet ep cfg :: rest).
Proof.
  induction attempts as [|attempt rest IH]; intros Hnext t.
  - exists []. rewrite app_nil_r. split; [reflexivity|].
    split; [reflexivity | congruence].
  - destruct Hnext as [Hsucc Hnext]. cbn [attemptLoop].
    destruct (up t ep _) as [error|response].
    + destruct (isRetryable error && (attempt <? retries)) eqn:Hwait.
      * apply andb_true_iff in Hwait as [_ Hlt]. apply Z.ltb_lt in Hlt.
        edestruct (IH Hnext) as (new & Htrace & Hok & Hfirst).
        destruct (Hfirst (Hsucc Hlt)) as (cfg & more & ->).
        rewrite Htrace. rewrite <- !app_assoc. cbn [app].
        eexists. split; [reflexivity|].
        split; [|intros _; eauto].
        cbn [waitsLeadToCalls timeline isLog]. exact Hok.
      * destruct (attempt =? retries); cbn [snd].
        -- rewrite <- !app_assoc. cbn [app].
           eexists. split; [reflexivity|]. split; [reflexivity | eauto].
        -- edestruct (IH Hnext) as (new & Htrace & Hok & _).
           rewrite Htrace. rewrite <- !app_assoc. cbn [app].
           eexists. split; [reflexivity|]. split; [exact Hok | eauto].
    + cbn [snd]. eexists. split; [reflexivity|]. split; [reflexivity | eauto].
Qed.

Lemma makeNewsRequest_return_inv
    (key : JsValue) (up : Trace -> string -> RequestConfig -> AxiosError + Response)
    (ep : string) (params : gmap string JsValue) (N : Z) (t : Trace)
    (data : JsValue) :
  1 <= N ->
  (makeNewsRequest key up ep params N t).1 = Return data ->
  exists h k response,
    1 <= k <= N
    /\ up h ep (attemptConfig key params k) = inr response
    /\ data = resp_data response
    /\ (makeNewsRequest key up ep params N t).2
       = h ++ [EvGet ep (attemptConfig key params k)].
Proof.
  intros HN. unfold makeNewsRequest. rewrite (seqZ_snoc N HN).
  destruct (attemptLoop key up ep params N (seqZ 1 (N - 1) ++ [N]) t)
    as [r t'] eqn:Hrun.
  cbn [fst snd]. intros ->.
  destruct (attemptLoop_return_inv _ _ _ _ _ _ _ _ _ Hrun)
    as (h & k & response & Hin & Hok & Hdata & Htrace).
  exists h, k, response. split; [|auto].
  rewrite <- (seqZ_snoc N HN) in Hin. apply elem_of_seqZ in Hin. lia.
Qed.

(** The User-Agent that goes out with attempt [n + 1]. *)
Lemma sent_user_agent_modular (key : JsValue) (params : gmap string JsValue)
    (n : nat) :
  sentHeaders (attemptConfig key params (Z.of_nat n + 1)) !! "User-Agent"
  = userAgents !! (n mod length userAgents)%nat.
Proof.
  unfold sentHeaders, attemptConfig. cbn [cfg_headers].
  destruct n as [|n].
  - vm_compute. reflexivity.
  - assert (Hgt : (1 <? Z.of_nat (S n) + 1) = true) by (apply Z.ltb_lt; lia).
    rewrite Hgt, getUserAgent_modular.
    destruct (userAgents !! (S n mod length userAgents)%nat) as [ua|] eqn:Hua.
    + apply lookup_union_Some_l. apply lookup_singleton_eq.
    + apply lookup_ge_None in Hua.
      pose proof (Nat.mod_upper_bound (S n) (length userAgents)) as Hlt.
      simpl in Hlt, Hua. lia.
Qed.

(** ** Numerals through [parseInt] *)

Lemma parseDigits_digit (c : ascii) (k : Z) (rest : string) (acc : option Z) :
  digitValue c = Some k -> k < 10 ->
  parseDigits 10 (String c rest) acc
  = parseDigits 10 rest (Some (10 * default 0 acc + k)).
Proof.
  intros Hc Hk. cbn [parseDigits]. rewrite Hc.
  apply Z.ltb_lt in Hk. rewrite Hk. reflexivity.
Qed.

Ltac digit_step :=
  first [ rewrite (parseDigits_digit "0" 0) by (reflexivity || lia)
        | rewrite (parseDigits_digit "1" 1) by (reflexivity || lia)
        | rewrite (parseDigits_digit "2" 2) by (reflexivity || lia)
        | rewrite (parseDigits_digit "3" 3) by (reflexivity || lia)
        | rewrite (parseDigits_digit "4" 4) by (reflexivity || lia)
        | rewrite (parseDigits_digit "5" 5) by (reflexivity || lia)
        | rewrite (parseDigits_digit "6" 6) by (reflexivity || lia)
        | rewrite (parseDigits_digit "7" 7) by (reflexivity || lia)
        | rewrite (parseDigits_digit "8" 8) by (reflexivity || lia)
        | rewrite (parseDigits_digit "9" 9) by (reflexivity || lia) ];
  cbn [default from_option]; unfold id.

Lemma parseDigits_uint_acc (d : Decimal.uint) (acc : positive) :
  parseDigits 10 (NilEmpty.string_of_uint d) (Some (Z.pos acc))
  = Some (Z.pos (Pos.of_uint_acc d acc)).
Proof.
  revert acc. induction d as [|d IH|d IH|d IH|d IH|d IH|d IH|d IH|d IH|d IH|d IH];
    intros acc; cbn [NilEmpty.string_of_uint Pos.of_uint_acc]; [reflexivity|..].
  all: digit_step; rewrite <- IH; f_equal; f_equal; lia.
Qed.

Lemma parseDigits_uint_zero (d : Decimal.uint) :
  parseDigits 10 (NilEmpty.string_of_uint d) (Some 0)
  = Some (Z.of_N (Pos.of_uint d)).
Proof.
  induction d as [|d IH|d IH|d IH|d IH|d IH|d IH|d IH|d IH|d IH|d IH];
    cbn [NilEmpty.string_of_uint Pos.of_uint]; [reflexivity|..].
  all: digit_step.
  - exact IH.
  - apply (parseDigits_uint_acc d 1).
  - apply (parseDigits_uint_acc d 2).
  - apply (parseDigits_uint_acc d 3).
  - apply (parseDigits_uint_acc d 4).
  - apply (parseDigits_uint_acc d 5).
  - apply (parseDigits_uint_acc d 6).
  - apply (parseDigits_uint_acc d 7).
  - apply (parseDigits_uint_acc d 8).
  - apply (parseDigits_uint_acc d 9).
Qed.

Lemma parseDigits_uint (d : Decimal.uint) :
  d <> Decimal.Nil ->
  parseDigits 10 (NilEmpty.string_of_uint d) None
  = Some (Z.of_N (Pos.of_uint d)).
Proof.
  intros Hd.
  destruct d; [congruence|..]; cbn [NilEmpty.string_of_uint Pos.of_uint];
    digit_step.
  - apply parseDigits_uint_zero.
  - apply (parseDigits_uint_acc d 1).
  - apply (parseDigits_uint_acc d 2).
  - apply (parseDigits_uint_acc d 3).
  - apply (parseDigits_uint_acc d 4).
  - apply (parseDigits_uint_acc d 5).
  - apply (parseDigits_uint_acc d 6).
  - apply (parseDigits_uint_acc d 7).
  - apply (parseDigits_uint_acc d 8).
  - apply (parseDigits_uint_acc d 9).
Qed.

(** Reading back a printed numeral, with or without a minus sign. *)
Lemma parseIntString_uint (d : Decimal.uint) :
  d <> Decimal.Nil ->
  parseIntString (NilEmpty.string_of_uint d) = toDouble (Z.of_N (Pos.of_uint d))
  /\ parseIntString (String "-" (NilEmpty.string_of_uint d))
     = toDouble (- Z.of_N (Pos.of_uint d)).
Proof.
  intros Hd. pose proof (parseDigits_uint d Hd) as Hdigits.
  unfold parseIntString.
  destruct d as [|d|d|d|d|d|d|d|d|d|d]; [congruence|..].
  2-10: cbn [NilEmpty.string_of_uint trimStart] in *;
        repeat match goal with
          | |- context [isWhiteSpace ?c] => change (isWhiteSpace c) with false
          | |- context [startsWideSpace ?c] =>
              change (startsWideSpace c) with false
          end;
        cbv iota; rewrite Hdigits; split; f_equal; lia.
  destruct d;
    cbn [NilEmpty.string_of_uint trimStart] in *;
    repeat match goal with
      | |- context [isWhiteSpace ?c] => change (isWhiteSpace c) with false
      | |- context [startsWideSpace ?c] => change (startsWideSpace c) with false
      end;
    cbv iota; rewrite Hdigits; split; f_equal; lia.
Qed.

(** Below 2^53 every integer is its own Number value. *)
Lemma toDouble_exact (z : Z) : Z.abs z < 2 ^ 53 -> toDouble z = Num z.
Proof.
  intros Hz. unfold toDouble. apply Z.ltb_lt in Hz. rewrite Hz. reflexivity.
Qed.

(** Printing an integer and reading it back gives its Number value. *)
Lemma parseInt_numeral (z : Z) :
  parseIntString (toString (VNumber (Num z))) = toDouble z.
Proof.
  cbn [toString]. unfold NilZero.string_of_int, Z.to_int.
  destruct z as [|p|p].
  - reflexivity.
  - pose proof (DecimalPos.Unsigned.to_uint_nonnil p) as Hnil.
    destruct (parseIntString_uint (Pos.to_uint p) Hnil) as [Hpos _].
    unfold NilZero.string_of_uint.
    destruct (Pos.to_uint p) eqn:Hp; [congruence|..];
      rewrite Hpos, <- Hp, DecimalPos.Unsigned.of_to; reflexivity.
  - pose proof (DecimalPos.Unsigned.to_uint_nonnil p) as Hnil.
    destruct (parseIntString_uint (Pos.to_uint p) Hnil) as [_ Hneg].
    unfold NilZero.string_of_uint.
    destruct (Pos.to_uint p) eqn:Hp; [congruence|..];
      rewrite Hneg, <- Hp, DecimalPos.Unsigned.of_to; reflexivity.
Qed.

Lemma parseInt_number (z : Z) :
  Z.abs z < 2 ^ 53 -> parseInt (VNumber (Num z)) = Num z.
Proof.
  intros Hz. unfold parseInt. rewrite parseInt_numeral.
  apply toDouble_exact. exact Hz.
Qed.

(** ** The retry controller: further properties *)

Lemma take_seqZ (m : nat) (N : Z) :
  (m <= Z.to_nat N)%nat -> take m (seqZ 1 N) = seqZ 1 (Z.of_nat m).
Proof.
  intros Hm. destruct (Z.le_gt_cases N 0) as [Hle | Hgt].
  - replace m with 0%nat by lia. reflexivity.
  - replace N with (Z.of_nat m + (N - Z.of_nat m)) at 1 by lia.
    rewrite seqZ_app by lia.
    apply take_app_length'. rewrite length_seqZ. lia.
Qed.

(** X1. A fetch contacts the upstream exactly when it is allowed at least
    one attempt: with [retries <= 0] it does nothing at all and resolves to
    [undefined]; with [retries >= 1] the first thing it does is the call
    of attempt 1. *)
Theorem makeNewsRequest_contacts_upstream_iff_attempts
    (key : JsValue) (up : Trace -> string -> RequestConfig -> AxiosError + Response)
    (ep : string) (params : gmap string JsValue) (retries : Z) (t : Trace) :
  (retries <= 0 ->
   makeNewsRequest key up ep params retries t = (Return VUndefined, t))
  /\ (1 <= retries ->
      exists rest,
        (makeNewsRequest key up ep params retries t).2
        = t ++ EvGet ep (attemptConfig key params 1) :: rest).
Proof.
  split.
  - intros Hn. unfold makeNewsRequest. rewrite seqZ_nil by exact Hn. reflexivity.
  - intros Hn. apply makeNewsRequest_first_call. exact Hn.
Qed.

(** X2. Whatever the upstream does, the calls of one fetch are those of
    the attempts 1, 2, ..., m in this order, for some m up to [retries]:
    always the same endpoint and the same parameters with the API key
    added; only the headers depend on the attempt. *)
Theorem makeNewsRequest_calls_in_order
    (key : JsValue) (up : Trace -> string -> RequestConfig -> AxiosError + Response)
    (ep : string) (params : gmap string JsValue) (N : Z) (t : Trace) :
  exists m : nat,
    (m <= Z.to_nat N)%nat
    /\ (1 <= N -> (1 <= m)%nat)
    /\ calls (makeNewsRequest key up ep params N t).2
       = calls t
         ++ ((fun k => (ep, attemptConfig key params k)) <$> seqZ 1 (Z.of_nat m))
    /\ (forall ep' cfg,
          (ep', cfg) ∈ ((fun k => (ep, attemptConfig key params k))
                          <$> seqZ 1 (Z.of_nat m)) ->
          ep' = ep /\ cfg_params cfg = <["apiKey" := key]> params).
Proof.
  unfold makeNewsRequest.
  destruct (attemptLoop_calls_prefix key up ep params N (seqZ 1 N) t)
    as (m & Hm & Hfirst & Hcalls).
  rewrite length_seqZ in Hm. exists m.
  split; [exact Hm|]. split.
  - intros HN. apply Hfirst. rewrite seqZ_cons by lia. discriminate.
  - rewrite take_seqZ in Hcalls by exact Hm. split; [exact Hcalls|].
    intros ep' cfg Hin. apply list_elem_of_fmap in Hin as (k & [= -> ->] & _).
    split; reflexivity.
Qed.

(** X3. Whatever the upstream does, the waits of one fetch with [N >= 1]
    attempts add up to at most [(2^N - 2) * 1000] ms: 6 seconds for the
    default of three attempts. *)
Theorem makeNewsRequest_total_wait_bounded
    (key : JsValue) (up : Trace -> string -> RequestConfig -> AxiosError + Response)
    (ep : string) (params : gmap string JsValue) (N : Z) (t : Trace) :
  1 <= N ->
  totalDelay t <= totalDelay (makeNewsRequest key up ep params N t).2
  /\ totalDelay (makeNewsRequest key up ep params N t).2
     <= totalDelay t + (2 ^ N - 2) * 1000.
Proof.
  intros HN. unfold makeNewsRequest.
  destruct (attemptLoop_delay_bound key up ep params N (seqZ 1 N) t) as [Hlo Hhi].
  split; [exact Hlo|].
  pose proof (waitBudget_seqZ N (Z.to_nat (N - 1)) 1) as Hbudget.
  replace (Z.of_nat (Z.to_nat (N - 1)) + 1) with N in Hbudget by lia.
  rewrite Hbudget in Hhi by lia.
  change (2 ^ 1) with 2 in Hhi. exact Hhi.
Qed.

(** X5. No wait of a fetch is wasted: every wait in what the fetch adds
    to the trace is directly followed by the next upstream call, so a
    fetch never sleeps before giving up. *)
Theorem makeNewsRequest_waits_lead_to_calls
    (key : JsValue) (up : Trace -> string -> RequestConfig -> AxiosError + Response)
    (ep : string) (params : gmap string JsValue) (N : Z) (t : Trace) :
  exists new,
    (makeNewsRequest key up ep params N t).2 = t ++ new
    /\ waitsLeadToCalls new = true.
Proof.
  unfold makeNewsRequest.
  destruct (attemptLoop_waits_lead_to_calls key up ep params N (seqZ 1 N))
    with (t := t) as (new & Htrace & Hok & _).
  - destruct (Z.le_gt_cases N 0) as [Hle | Hgt].
    + rewrite seqZ_nil by exact Hle. exact I.
    + replace N with (Z.of_nat (Z.to_nat N)) at 2 by lia.
      apply hasNext_seqZ. right. lia.
  - exists new. auto.
Qed.

(** X6. Two attempts go out with the same User-Agent exactly when their
    numbers differ by a multiple of five: attempts 1 to 5 use five
    different signatures (attempt 1 the default of the instance, which is
    the first of the pool) and attempt 6 starts over. *)
Theorem user_agent_repeats_every_five
    (key : JsValue) (params : gmap string JsValue) (n m : nat) :
  sentHeaders (attemptConfig key params (Z.of_nat n + 1)) !! "User-Agent"
  = sentHeaders (attemptConfig key params (Z.of_nat m + 1)) !! "User-Agent"
  <-> (n mod 5 = m mod 5)%nat.
Proof.
  rewrite !sent_user_agent_modular.
  change (length userAgents) with 5%nat.
  pose proof (Nat.mod_upper_bound n 5) as Hn.
  pose proof (Nat.mod_upper_bound m 5) as Hm.
  split.
  - intros Heq.
    destruct (userAgents !! (n mod 5)%nat) as [ua|] eqn:Hua.
    + eapply (NoDup_lookup userAgents); [|exact Hua|symmetry; exact Heq].
      apply (bool_decide_unpack (NoDup userAgents)). vm_compute. reflexivity.
    + apply lookup_ge_None in Hua. simpl in Hua. lia.
  - intros ->. reflexivity.
Qed.

(** X7. The flag [isCloudflareIssue] and the decision to wait do not
    always agree. A failure that is flagged but not waited for is one whose
    body is a string without "cloudflare" in it that contains one of the
    other two markers, under a status other than 403 and 429; every other
    flagged failure is retried with backoff while attempts remain. *)
Theorem cloudflare_flag_without_backoff (e : AxiosError) :
  isCloudflareError e = true ->
  isRetryable e = false ->
  exists response data,
    err_response e = Some response
    /\ resp_data response = VString data
    /\ includes data "cloudflare" = false
    /\ (includes data "Just a moment" = true
        \/ includes data "Enable JavaScript and cookies" = true)
    /\ resp_status response <> 403
    /\ resp_status response <> 429.
Proof.
  unfold isCloudflareError, isRetryable, responseStatus.
  destruct (err_response e) as [response|]; [|discriminate].
  cbn [fmap option_fmap option_map].
  intros Hflag Hwait.
  apply orb_false_iff in Hwait as [Hwait Hbody].
  apply orb_false_iff in Hwait as [Hwait _].
  apply orb_false_iff in Hwait as [H403 H429].
  apply bool_decide_eq_false in H403, H429.
  assert (Hs403 : resp_status response <> 403) by congruence.
  assert (Hs429 : resp_status response <> 429) by congruence.
  destruct (resp_data response) as [| |b|n|data|items|fields] eqn:Hdata;
    try (apply orb_true_iff in Hflag as [Hflag|Hflag];
         apply Z.eqb_eq in Hflag; contradiction).
  exists response, data.
  assert (Hcf : includes data "cloudflare" = false).
  { destruct (includes data "cloudflare") eqn:Hcf; [|reflexivity].
    destruct data as [|c data]; [discriminate Hcf|].
    simpl in Hbody. discriminate Hbody. }
  rewrite Hcf in Hflag. cbn [orb] in Hflag.
  apply orb_true_iff in Hflag. auto 10.
Qed.

(** X8. [page] and [pageSize] given as the decimal numeral of an integer
    below 2^53 in magnitude reach the upstream as that integer, and when
    they are absent the defaults 1 and 10 are sent: in that range
    [parseInt] reads back what printing an integer produced. *)
Theorem page_numeral_forwarded (req : Req) (z : Z) :
  Z.abs z < 2 ^ 53 ->
  parseInt (VNumber (Num z)) = Num z
  /\ (req_query req !! "page" = None -> pageOf req = VNumber (Num 1))
  /\ (req_query req !! "pageSize" = None -> pageSizeOf req = VNumber (Num 10))
  /\ (req_query req !! "page" = Some (toString (VNumber (Num z))) ->
      pageOf req = VNumber (Num z))
  /\ (req_query req !! "pageSize" = Some (toString (VNumber (Num z))) ->
      pageSizeOf req = VNumber (Num z)).
Proof.
  intros Hsafe. pose proof (parseInt_number z Hsafe) as Hz.
  unfold pageOf, pageSizeOf.
  split; [exact Hz|].
  split; [intros ->; reflexivity|].
  split; [intros ->; reflexivity|].
  split; intros ->; cbn [withDefault]; f_equal; exact Hz.
Qed.

(** ** The handlers: further properties *)

(** X4. A handler answers with a success envelope only when an upstream
    call of its fetch succeeded: the status is 200, the timestamp is the
    current time, [data] is what the upstream answered to the last call
    made, untouched, and nothing happens after that call. *)
Theorem handler_success_is_upstream_payload
    (key : JsValue) (up : Trace -> string -> RequestConfig -> AxiosError + Response)
    (now : string) (route : Route) (req : Req) (t : Trace)
    (data : JsValue) (ts : string) :
  res_body (handle key up now route req t).1 = Success data ts ->
  ts = now
  /\ res_status (handle key up now route req t).1 = 200
  /\ exists h ep cfg response,
       up h ep cfg = inr response
       /\ data = resp_data response
       /\ (handle key up now route req t).2 = h ++ [EvGet ep cfg].
Proof.
  intros Hbody.
  destruct (handle_cases key up now route req t)
    as [(_ & _ & Hrej) | (lbl & ep & params & Hrun & _)].
  { rewrite Hrej in Hbody. discriminate Hbody. }
  rewrite Hrun in Hbody |- *. rewrite respond_trace.
  destruct (respond_cases key up now lbl ep params t)
    as [(data' & Hret & Hres) | (c & _ & Hres)];
    rewrite Hres in Hbody |- *; [|discriminate Hbody].
  injection Hbody as <- <-.
  split; [reflexivity|]. split; [reflexivity|].
  destruct (makeNewsRequest_return_inv key up ep params 3 t data' ltac:(lia) Hret)
    as (h & k & response & _ & Hok & Hdata & Htrace).
  exists h, ep, (attemptConfig key params k), response. auto.
Qed.

(** X9. A handler of the minimal controller contacts the upstream at most
    once and never waits. Its search rejects a missing or empty [q] with
    status 400 before any call; every other request makes exactly one
    call, with no header of its own and no API key among the query
    parameters, carrying the parsed [page] and [pageSize]; the answer is
    the payload with status 200, or the failure's status (500 when it has
    none) with the message of [errorMessage]. *)
Theorem minimal_handler_single_call
    (up : Trace -> string -> RequestConfig -> AxiosError + Response)
    (now : string) (route : Route) (req : Req) (t : Trace) :
  let out := Minimal.handle up now route req t in
  (route = SearchNews
   /\ (req_query req !! "q" = None \/ req_query req !! "q" = Some "")
   /\ out = ({| Minimal.res_status := 400;
                Minimal.res_body := Minimal.Failed "Search query is required" |}, t))
  \/ (exists ep cfg,
        out.2 = t ++ [EvGet ep cfg]
        /\ cfg_headers cfg = ∅
        /\ cfg_params cfg !! "apiKey" = None
        /\ cfg_params cfg !! "page" = Some (pageOf req)
        /\ cfg_params cfg !! "pageSize" = Some (pageSizeOf req)
        /\ ((exists response,
                up t ep cfg = inr response
                /\ out.1 = {| Minimal.res_status := 200;
                              Minimal.res_body :=
                                Minimal.Success (resp_data response) now |})
            \/ (exists e,
                   up t ep cfg = inl e
                   /\ out.1 = {| Minimal.res_status := statusOr500 e;
                                 Minimal.res_body :=
                                   Minimal.Failed (Minimal.errorMessage e) |}))).
Proof.
  intros out. subst out.
  assert (Hrespond : forall ep params,
             params !! "apiKey" = None ->
             params !! "page" = Some (pageOf req) ->
             params !! "pageSize" = Some (pageSizeOf req) ->
             exists ep' cfg,
               (Minimal.respond up now ep params t).2 = t ++ [EvGet ep' cfg]
               /\ cfg_headers cfg = ∅
               /\ cfg_params cfg !! "apiKey" = None
               /\ cfg_params cfg !! "page" = Some (pageOf req)
               /\ cfg_params cfg !! "pageSize" = Some (pageSizeOf req)
               /\ ((exists response,
                       up t ep' cfg = inr response
                       /\ (Minimal.respond up now ep params t).1
                          = {| Minimal.res_status := 200;
                               Minimal.res_body :=
                                 Minimal.Success (resp_data response) now |})
                   \/ (exists e,
                          up t ep' cfg = inl e
                          /\ (Minimal.respond up now ep params t).1
                             = {| Minimal.res_status := statusOr500 e;
                                  Minimal.res_body :=
                                    Minimal.Failed (Minimal.errorMessage e) |}))).
  { intros ep params Hkey Hpage Hsize.
    exists ep, {| cfg_params := params; cfg_headers := ∅ |}.
    unfold Minimal.respond, Minimal.makeNewsRequest. cbn [default from_option id].
    destruct (up t ep _) as [e|response] eqn:Hup; cbn [fst snd];
      repeat (split; [first [reflexivity | assumption]|]); eauto. }
  destruct route; cbn [Minimal.handle];
    try (right; apply Hrespond; reflexivity).
  unfold Minimal.searchNews.
  destruct (req_query req !! "q") as [q|] eqn:Hq; cbn [optString truthy negb].
  - destruct q as [|c q]; cbn [String.eqb negb].
    + left. auto.
    + right. apply Hrespond; reflexivity.
  - left. auto.
Qed.

(** X10. In the minimal controller the trending route and the general
    route are the same request; in the retry-capable controller they
    differ: trending asks for the category "general", the general route
    names no category. *)
Theorem trending_versus_general
    (key : JsValue) (up : Trace -> string -> RequestConfig -> AxiosError + Response)
    (now : string) (req : Req) (t : Trace) :
  Minimal.getTrendingNews up now req t = Minimal.getGeneralNews up now req t
  /\ (exists cfg rest,
         (getTrendingNews key up now req t).2
         = t ++ EvGet "/top-headlines" cfg :: rest
         /\ cfg_params cfg !! "category" = Some (VString "general"))
  /\ (exists cfg rest,
         (getGeneralNews key up now req t).2
         = t ++ EvGet "/top-headlines" cfg :: rest
         /\ cfg_params cfg !! "category" = None).
Proof.
  split; [reflexivity|].
  unfold getTrendingNews, getGeneralNews. rewrite !respond_trace.
  split.
  - edestruct (makeNewsRequest_first_call key up "/top-headlines") as [rest Hrest];
      [|eexists; exists rest; split; [exact Hrest | reflexivity]].
    lia.
  - edestruct (makeNewsRequest_first_call key up "/top-headlines") as [rest Hrest];
      [|eexists; exists rest; split; [exact Hrest | reflexivity]].
    lia.
Qed.

(** ** The auth middleware: properties *)

Lemma replaceFirst_absent (pat rep s : string) :
  includes s pat = false -> replaceFirst pat rep s = s.
Proof.
  induction s as [|c s IH]; cbn [includes replaceFirst].
  - destruct (String.prefix pat ""); [discriminate | reflexivity].
  - destruct (String.prefix pat (String c s)); [discriminate|].
    intros Hrest. rewrite (IH Hrest). reflexivity.
Qed.

Lemma bearerToken_prefixed (token : string) :
  bearerToken (Some ("Bearer " +:+ token)) = Some token.
Proof.
  unfold bearerToken. cbn [fmap option_fmap option_map]. f_equal.
  cbn. destruct token; reflexivity.
Qed.

Section AuthFacts.

Variable User : Type.
Variable emailVerified : User -> bool.
Variable jwtVerify : string -> ThrownError + option string.
Variable findById : option string -> ThrownError + option User.

Let strict := authMiddleware User emailVerified jwtVerify findById.
Let lenient := authMiddlewareAllowUnverified User jwtVerify findById.
Let optional := optionalAuth User jwtVerify findById.

(** How the strict middleware relates to the lenient one. *)
Lemma strict_versus_lenient (authorization : option string) :
  (exists code msg, strict authorization = Reject code msg
                    /\ lenient authorization = Reject code msg /\ code = 401)
  \/ (exists user, strict authorization = Next (Some user)
                   /\ lenient authorization = Next (Some user)
                   /\ emailVerified user = true)
  \/ (exists user, strict authorization
                   = Reject 403
                       "Email not verified, please verify your email to access this resource"
                   /\ lenient authorization = Next (Some user)
                   /\ emailVerified user = false).
Proof.
  unfold strict, lenient, authMiddleware, authMiddlewareAllowUnverified.
  destruct (negb (truthy (optString (bearerToken authorization)))).
  { left. eauto. }
  destruct (jwtVerify _) as [error|userId].
  { left. unfold rejectThrown. destruct (String.eqb _ _); eauto. }
  destruct (findById userId) as [error|[user|]].
  - left. unfold rejectThrown. destruct (String.eqb _ _); eauto.
  - destruct (emailVerified user) eqn:Hv; cbn [negb].
    + right. left. eauto.
    + right. right. eauto.
  - left. eauto.
Qed.

End AuthFacts.

(** X11. The strict middleware lets a request through exactly when its
    header yields a non-empty token that [jwt.verify] accepts, the user
    named by the token exists, and that user's email is verified; the
    user put on the request is that user. *)
Theorem authMiddleware_next_iff
    (User : Type) (emailVerified : User -> bool)
    (jwtVerify : string -> ThrownError + option string)
    (findById : option string -> ThrownError + option User)
    (authorization : option string) (reqUser : option User) :
  authMiddleware User emailVerified jwtVerify findById authorization = Next reqUser
  <-> exists token userId user,
        bearerToken authorization = Some token
        /\ token <> ""
        /\ jwtVerify token = inr userId
        /\ findById userId = inr (Some user)
        /\ emailVerified user = true
        /\ reqUser = Some user.
Proof.
  unfold authMiddleware. split.
  - destruct (bearerToken authorization) as [[|c token]|]; cbn; try discriminate.
    destruct (jwtVerify (String c token)) as [error|userId] eqn:Hjwt.
    { unfold rejectThrown. destruct (String.eqb _ _); discriminate. }
    destruct (findById userId) as [error|[user|]] eqn:Hfind.
    + unfold rejectThrown. destruct (String.eqb _ _); discriminate.
    + destruct (emailVerified user) eqn:Hv; cbn; [|discriminate].
      intros [= <-]. exists (String c token), userId, user.
      repeat split; auto; discriminate.
    + discriminate.
  - intros (token & userId & user & -> & Hne & Hjwt & Hfind & Hv & ->).
    destruct token as [|c token]; [congruence|]. cbn.
    rewrite Hjwt, Hfind, Hv. reflexivity.
Qed.

(** X12. The two strict middlewares answer alike except for users whose
    email is not verified: whenever the strict one rejects with 401 the
    lenient one rejects with the same status and message; whenever the
    strict one lets a user through so does the lenient one; and the only
    other answer of the strict one is the 403 for an existing user with an
    unverified email, whom the lenient one lets through. *)
Theorem allowUnverified_versus_strict
    (User : Type) (emailVerified : User -> bool)
    (jwtVerify : string -> ThrownError + option string)
    (findById : option string -> ThrownError + option User)
    (authorization : option string) :
  let strict := authMiddleware User emailVerified jwtVerify findById authorization in
  let lenient := authMiddlewareAllowUnverified User jwtVerify findById authorization in
  (forall reqUser, strict = Next reqUser -> lenient = Next reqUser)
  /\ (forall msg, strict = Reject 401 msg -> lenient = Reject 401 msg)
  /\ (forall code msg,
        strict = Reject code msg -> code <> 401 ->
        code = 403
        /\ exists user, lenient = Next (Some user) /\ emailVerified user = false)
  /\ (forall code msg, lenient = Reject code msg -> strict = Reject code msg).
Proof.
  intros strict lenient. subst strict lenient.
  destruct (strict_versus_lenient User emailVerified jwtVerify findById authorization)
    as [(code & msg & Hs & Hl & ->) | [(user & Hs & Hl & Hv) | (user & Hs & Hl & Hv)]];
    rewrite Hs, Hl.
  - split; [discriminate|]. split; [auto|]. split; [|auto].
    intros code msg' [= <- <-] Hne. congruence.
  - split; [auto|]. split; [discriminate|]. split; discriminate.
  - split; [discriminate|]. split; [discriminate|]. split; [|discriminate].
    intros code msg [= <- <-] _. split; [reflexivity | eauto].
Qed.

(** X13. The optional middleware never answers the request itself: it
    always calls [next()], with the user the lenient middleware would have
    let through, and with [req.user = null] in every case in which the
    lenient middleware would have rejected. *)
Theorem optionalAuth_as_allowUnverified
    (User : Type)
    (jwtVerify : string -> ThrownError + option string)
    (findById : option string -> ThrownError + option User)
    (authorization : option string) :
  optionalAuth User jwtVerify findById authorization
  = Next match authMiddlewareAllowUnverified User jwtVerify findById authorization with
         | Next reqUser => reqUser
         | Reject _ _ => None
         end.
Proof.
  unfold optionalAuth, authMiddlewareAllowUnverified.
  destruct (negb (truthy (optString (bearerToken authorization)))); [reflexivity|].
  destruct (jwtVerify _) as [error|userId].
  { unfold rejectThrown. destruct (String.eqb _ _); reflexivity. }
  destruct (findById userId) as [error|[user|]]; try reflexivity.
  unfold rejectThrown. destruct (String.eqb _ _); reflexivity.
Qed.

(** X14. The "Bearer " scheme is optional: a header that is the bare
    token is treated exactly like "Bearer " followed by that token (for a
    token that does not itself contain "Bearer "), by all three
    middlewares; and a header that is only "Bearer " counts as no token. *)
Theorem bearer_prefix_optional
    (User : Type) (emailVerified : User -> bool)
    (jwtVerify : string -> ThrownError + option string)
    (findById : option string -> ThrownError + option User)
    (token : string) :
  (includes token "Bearer " = false ->
   bearerToken (Some token) = bearerToken (Some ("Bearer " +:+ token))
   /\ authMiddleware User emailVerified jwtVerify findById (Some token)
      = authMiddleware User emailVerified jwtVerify findById
          (Some ("Bearer " +:+ token))
   /\ authMiddlewareAllowUnverified User jwtVerify findById (Some token)
      = authMiddlewareAllowUnverified User jwtVerify findById
          (Some ("Bearer " +:+ token))
   /\ optionalAuth User jwtVerify findById (Some token)
      = optionalAuth User jwtVerify findById (Some ("Bearer " +:+ token)))
  /\ authMiddleware User emailVerified jwtVerify findById (Some "Bearer ")
     = Reject 401 "No token provided, authorization denied"
  /\ optionalAuth User jwtVerify findById (Some "Bearer ") = Next None.
Proof.
  split; [|split; reflexivity].
  intros Habsent.
  assert (Heq : bearerToken (Some token) = bearerToken (Some ("Bearer " +:+ token))).
  { rewrite bearerToken_prefixed. unfold bearerToken.
    cbn [fmap option_fmap option_map].
    rewrite (replaceFirst_absent "Bearer " "" token Habsent). reflexivity. }
  unfold authMiddleware, authMiddlewareAllowUnverified, optionalAuth.
  rewrite Heq. auto.
Qed.

(** ** The database connection: properties *)

Lemma dbStep_invariant (s s' : DbState) (e : DbEvent) :
  dbInvariant s -> dbStep s e = Some s' -> dbInvariant s'.
Proof.
  unfold dbInvariant. intros Hinv. destruct e as [uri| |r]; cbn [dbStep].
  - intros [= <-]. unfold connectToDB.
    destruct (readyState s =? 1); [exact Hinv|].
    destruct (connPromise s) as [p|] eqn:Hp; cbn [snd]; [rewrite Hp; exact Hinv|].
    destruct (negb (truthy (optString uri))); cbn [snd connPromise connects settled].
    + rewrite Hp. exact Hinv.
    + split; congruence.
  - destruct (settled s <? connects s)%nat eqn:Hlt; [|discriminate].
    intros [= <-]. cbn [connectSettled connPromise connects settled].
    apply Nat.ltb_lt in Hlt.
    destruct (connPromise s) as [p|]; [destruct Hinv; lia | lia].
  - intros [= <-]. exact Hinv.
Qed.

Lemma dbRun_invariant (events : list DbEvent) (s s' : DbState) :
  dbInvariant s -> dbRun s events = Some s' -> dbInvariant s'.
Proof.
  revert s. induction events as [|e events IH]; intros s Hinv; cbn [dbRun].
  - intros [= <-]. exact Hinv.
  - destruct (dbStep s e) as [s1|] eqn:Hstep; [|discriminate].
    apply IH. exact (dbStep_invariant s s1 e Hinv Hstep).
Qed.

(** X15. However calls of [connectToDB], settlements and changes of
    mongoose's [readyState] interleave, at most one [mongoose.connect] is
    under way at any time: the module has made as many calls as have
    settled, or exactly one more, and in that case the cached promise is
    the one of the call under way. *)
Theorem connectToDB_single_flight (events : list DbEvent) (s : DbState) :
  dbRun dbInitial events = Some s ->
  (connPromise s = None /\ connects s = settled s)
  \/ (connPromise s = Some (settled s) /\ connects s = S (settled s)).
Proof.
  intros Hrun.
  assert (Hinv : dbInvariant s).
  { apply (dbRun_invariant events dbInitial s); [reflexivity | exact Hrun]. }
  unfold dbInvariant in Hinv.
  destruct (connPromise s) as [p|]; [right | left; auto].
  destruct Hinv as [Hc ->]. auto.
Qed.

(** X16. Once a call of [connectToDB] has handed out a pending promise,
    nothing short of its settlement replaces it: after any further calls
    and any changes of [readyState] the same promise is still cached, no
    other [mongoose.connect] has been made, and a further call hands out
    that promise or, when mongoose reports connected, the connection; a
    missing URI goes unnoticed meanwhile. *)
Theorem connectToDB_shares_pending
    (uri : option string) (s s1 s2 : DbState) (p : nat) (events : list DbEvent) :
  connectToDB uri s = (Pending p, s1) ->
  Forall (fun e => e <> Settled) events ->
  dbRun s1 events = Some s2 ->
  connPromise s2 = Some p
  /\ connects s2 = connects s1
  /\ forall uri',
       connectToDB uri' s2
       = (if readyState s2 =? 1 then Connection else Pending p, s2).
Proof.
  intros Hcall Hquiet Hrun.
  assert (Hp : connPromise s1 = Some p).
  { unfold connectToDB in Hcall.
    destruct (readyState s =? 1); [discriminate|].
    destruct (connPromise s) as [q|] eqn:Hq.
    - injection Hcall as <- <-. exact Hq.
    - destruct (negb (truthy (optString uri))); [discriminate|].
      injection Hcall as <- <-. reflexivity. }
  clear Hcall.
  assert (Hkeep : connPromise s2 = Some p /\ connects s2 = connects s1).
  { revert s1 Hp Hrun.
    induction Hquiet as [|e events He _ IH]; intros s1 Hp; cbn [dbRun].
    - intros [= <-]. auto.
    - destruct e as [uri'| |r]; cbn [dbStep].
      + unfold connectToDB.
        destruct (readyState s1 =? 1); cbn [snd]; [apply IH; exact Hp|].
        rewrite Hp. cbn [snd]. apply IH. exact Hp.
      + congruence.
      + intros Hrun. apply IH in Hrun; [exact Hrun | exact Hp]. }
  destruct Hkeep as [Hp2 Hc2].
  split; [exact Hp2|]. split; [exact Hc2|].
  intros uri'. unfold connectToDB.
  destruct (readyState s2 =? 1); [reflexivity|]. rewrite Hp2. reflexivity.
Qed.

(** ** The further properties at concrete scenarios *)

Lemma makeNewsRequest_contacts_upstream_iff_attempts_witness :
  makeNewsRequest Scenario.apiKey Scenario.healthy "/top-headlines" ∅ 0 []
  = (Return VUndefined, []).
Proof.
  apply (makeNewsRequest_contacts_upstream_iff_attempts Scenario.apiKey
           Scenario.healthy "/top-headlines" ∅ 0 []).
  lia.
Defined.

Lemma makeNewsRequest_calls_in_order_witness :
  exists m : nat,
    (1 <= m <= 3)%nat
    /\ calls (makeNewsRequest Scenario.apiKey
                (Scenario.failsOnce Scenario.unauthorized) "/everything" ∅ 3 []).2
       = (fun k => ("/everything", attemptConfig Scenario.apiKey ∅ k))
           <$> seqZ 1 (Z.of_nat m).
Proof.
  destruct (makeNewsRequest_calls_in_order Scenario.apiKey
              (Scenario.failsOnce Scenario.unauthorized) "/everything" ∅ 3 [])
    as (m & Hm & Hfirst & Hcalls & _).
  exists m. split; [|exact Hcalls].
  split; [apply Hfirst; lia | exact Hm].
Defined.

Lemma makeNewsRequest_total_wait_bounded_witness :
  totalDelay [] <= totalDelay
                     (makeNewsRequest Scenario.apiKey
                        (Scenario.alwaysFails Scenario.rateLimited)
                        "/everything" ∅ 3 []).2
  /\ totalDelay
       (makeNewsRequest Scenario.apiKey
          (Scenario.alwaysFails Scenario.rateLimited) "/everything" ∅ 3 []).2
     <= totalDelay [] + (2 ^ 3 - 2) * 1000.
Proof.
  apply (makeNewsRequest_total_wait_bounded Scenario.apiKey
           (Scenario.alwaysFails Scenario.rateLimited) "/everything" ∅ 3 []).
  lia.
Defined.

Lemma handler_success_is_upstream_payload_witness :
  let out :=
    handle Scenario.apiKey (Scenario.failsOnce Scenario.rateLimited)
      "2025-01-01T00:00:00.000Z" GeneralNews Scenario.emptyReq [] in
  "2025-01-01T00:00:00.000Z" = "2025-01-01T00:00:00.000Z"
  /\ res_status out.1 = 200
  /\ exists h ep cfg response,
       Scenario.failsOnce Scenario.rateLimited h ep cfg = inr response
       /\ Scenario.payload = resp_data response
       /\ out.2 = h ++ [EvGet ep cfg].
Proof.
  apply (handler_success_is_upstream_payload Scenario.apiKey
           (Scenario.failsOnce Scenario.rateLimited)
           "2025-01-01T00:00:00.000Z" GeneralNews Scenario.emptyReq []
           Scenario.payload "2025-01-01T00:00:00.000Z").
  reflexivity.
Defined.

Lemma user_agent_repeats_every_five_witness :
  sentHeaders (attemptConfig Scenario.apiKey ∅ (Z.of_nat 0 + 1)) !! "User-Agent"
  = sentHeaders (attemptConfig Scenario.apiKey ∅ (Z.of_nat 5 + 1)) !! "User-Agent".
Proof.
  apply (user_agent_repeats_every_five Scenario.apiKey ∅ 0 5).
  reflexivity.
Defined.

Lemma cloudflare_flag_without_backoff_witness :
  exists response data,
    err_response ExtraScenario.challengePage = Some response
    /\ resp_data response = VString data
    /\ includes data "cloudflare" = false
    /\ (includes data "Just a moment" = true
        \/ includes data "Enable JavaScript and cookies" = true)
    /\ resp_status response <> 403
    /\ resp_status response <> 429.
Proof.
  apply (cloudflare_flag_without_backoff ExtraScenario.challengePage).
  - reflexivity.
  - reflexivity.
Defined.

Lemma page_numeral_forwarded_witness :
  pageOf (Scenario.pagedReq "2") = VNumber (Num 2)
  /\ pageSizeOf (Scenario.pagedReq "2") = VNumber (Num 10).
Proof.
  destruct (page_numeral_forwarded (Scenario.pagedReq "2") 2)
    as (_ & _ & Hsize & Hpage & _).
  - reflexivity.
  - split; [apply Hpage | apply Hsize]; reflexivity.
Defined.

Lemma authMiddleware_next_iff_witness :
  authMiddleware AuthScenario.Account AuthScenario.verified
    AuthScenario.jwtVerify AuthScenario.findById (Some "Bearer tok-alice")
  = Next (Some AuthScenario.alice).
Proof.
  apply (authMiddleware_next_iff AuthScenario.Account AuthScenario.verified
           AuthScenario.jwtVerify AuthScenario.findById
           (Some "Bearer tok-alice") (Some AuthScenario.alice)).
  exists "tok-alice", (Some "u1"), AuthScenario.alice.
  repeat split; try reflexivity. discriminate.
Defined.

Lemma allowUnverified_versus_strict_witness :
  403 = 403
  /\ exists user,
       authMiddlewareAllowUnverified AuthScenario.Account
         AuthScenario.jwtVerify AuthScenario.findById (Some "Bearer tok-bob")
       = Next (Some user)
       /\ AuthScenario.verified user = false.
Proof.
  destruct (allowUnverified_versus_strict AuthScenario.Account
              AuthScenario.verified AuthScenario.jwtVerify AuthScenario.findById
              (Some "Bearer tok-bob")) as (_ & _ & Hforbidden & _).
  apply (Hforbidden 403
           "Email not verified, please verify your email to access this resource").
  - reflexivity.
  - discriminate.
Defined.

Lemma bearer_prefix_optional_witness :
  authMiddleware AuthScenario.Account AuthScenario.verified
    AuthScenario.jwtVerify AuthScenario.findById (Some "tok-alice")
  = authMiddleware AuthScenario.Account AuthScenario.verified
      AuthScenario.jwtVerify AuthScenario.findById
      (Some ("Bearer " +:+ "tok-alice")).
Proof.
  destruct (bearer_prefix_optional AuthScenario.Account AuthScenario.verified
              AuthScenario.jwtVerify AuthScenario.findById "tok-alice")
    as [Hsame _].
  destruct Hsame as (_ & Hstrict & _); [reflexivity | exact Hstrict].
Defined.

Lemma connectToDB_single_flight_witness :
  exists s,
    dbRun dbInitial ExtraScenario.dbEvents = Some s
    /\ ((connPromise s = None /\ connects s = settled s)
        \/ (connPromise s = Some (settled s) /\ connects s = S (settled s))).
Proof.
  eexists. split; [reflexivity|].
  apply (connectToDB_single_flight ExtraScenario.dbEvents).
  reflexivity.
Defined.

Lemma connectToDB_shares_pending_witness :
  let s1 := (connectToDB ExtraScenario.mongoUri dbInitial).2 in
  match dbRun s1 ExtraScenario.dbQuietEvents with
  | Some s2 => connPromise s2 = Some 0%nat /\ connects s2 = connects s1
  | None => False
  end.
Proof.
  intros s1.
  destruct (dbRun s1 ExtraScenario.dbQuietEvents) as [s2|] eqn:Hrun;
    [|vm_compute in Hrun; discriminate Hrun].
  destruct (connectToDB_shares_pending ExtraScenario.mongoUri dbInitial s1 s2 0
              ExtraScenario.dbQuietEvents) as (Hp & Hc & _).
  - reflexivity.
  - repeat constructor; discriminate.
  - exact Hrun.
  - split; [exact Hp | exact Hc].
Defined.

(** ** Network-level failures *)

(** X17. A failure without an HTTP response (a network-level error) is
    always thrown with status 500 and [isCloudflareIssue = false], its
    message being the error's own text; it is waited for exactly when its
    code is [ECONNRESET]. A fetch whose attempts all end in a connection
    reset follows the backoff schedule and then throws that
    classification. *)
Theorem connection_reset_backed_off
    (key : JsValue) (up : Trace -> string -> RequestConfig -> AxiosError + Response)
    (ep : string) (params : gmap string JsValue) (N : Z) (t : Trace) :
  (forall e, err_response e = None ->
     classify e
     = {| status := 500;
          message := if String.eqb (err_message e) "" then "Unknown error occurred"
                     else err_message e;
          isCloudflareIssue := false |}
     /\ (isRetryable e = true <-> err_code e = Some "ECONNRESET"))
  /\ (1 <= N ->
      (forall h cfg, exists e,
          up h ep cfg = inl e
          /\ err_response e = None /\ err_code e = Some "ECONNRESET") ->
      exists e,
        err_response e = None
        /\ (makeNewsRequest key up ep params N t).1 = Throw (classify e)
        /\ status (classify e) = 500
        /\ isCloudflareIssue (classify e) = false
        /\ timeline (makeNewsRequest key up ep params N t).2
           = timeline t ++ backoffSchedule key ep params (seqZ 1 N)).
Proof.
  assert (Hclass : forall e, err_response e = None ->
            classify e
            = {| status := 500;
                 message := if String.eqb (err_message e) "" then "Unknown error occurred"
                            else err_message e;
                 isCloudflareIssue := false |}
            /\ (isRetryable e = true <-> err_code e = Some "ECONNRESET")).
  { intros e Hnone. split.
    - unfold classify, statusOr500, getErrorMessage, isCloudflareError, responseStatus.
      rewrite Hnone. reflexivity.
    - unfold isRetryable, responseStatus. rewrite Hnone.
      cbn [fmap option_fmap option_map].
      rewrite !(bool_decide_eq_false_2 (None = Some _)) by discriminate.
      cbn [orb]. rewrite orb_false_r. apply bool_decide_eq_true. }
  split; [exact Hclass|].
  intros HN Hreset. unfold makeNewsRequest. rewrite (seqZ_snoc N HN).
  destruct (attemptLoop_transient key up ep params N (seqZ 1 (N - 1)) t
              (seqZ_below N)) as (h & e & Hup & _ & Hres & Htl).
  { intros h cfg. destruct (Hreset h cfg) as (e & He & Hnone & Hcode).
    exists e. split; [exact He|]. apply (Hclass e Hnone). exact Hcode. }
  destruct (Hreset h (attemptConfig key params N)) as (e' & He' & Hnone & _).
  assert (e' = e) by congruence. subst e'.
  exists e. destruct (Hclass e Hnone) as [Hc _].
  split; [exact Hnone|]. split; [exact Hres|].
  rewrite Hc. auto.
Qed.

Lemma connection_reset_backed_off_witness :
  let reset :=
    {| err_response := None; err_code := Some "ECONNRESET";
       err_message := "socket hang up" |} in
  exists e,
    err_response e = None
    /\ (makeNewsRequest Scenario.apiKey (Scenario.alwaysFails reset)
          "/top-headlines" ∅ 3 []).1 = Throw (classify e)
    /\ status (classify e) = 500
    /\ isCloudflareIssue (classify e) = false
    /\ timeline (makeNewsRequest Scenario.apiKey (Scenario.alwaysFails reset)
                   "/top-headlines" ∅ 3 []).2
       = timeline [] ++ backoffSchedule Scenario.apiKey "/top-headlines" ∅ (seqZ 1 3).
Proof.
  intros reset.
  apply (connection_reset_backed_off Scenario.apiKey (Scenario.alwaysFails reset)
           "/top-headlines" ∅ 3 []).
  - lia.
  - intros h cfg. exists reset. repeat split; reflexivity.
Defined.
